(** * EduPredict web client: simulator, dashboard and navigation state

    A shallow embedding of the client-side controllers of the EduPredict
    single-page application:

    - [js/charts.js]       risk colours and labels, chart configurations;
    - [js/api-client.js]   the requests the client sends;
    - [js/dashboard.js]    the analytics dashboard controller;
    - [js/app.js]          navigation and the investment simulator.

    Conventions of the embedding.

    - A JavaScript number that comes out of a JSON body is finite, hence a
      rational: rates, counts and model inputs are values of [Q], and the
      comparisons of the source ([<], [>]) are the comparisons of [Q].
      Arithmetic on them is the exact one (rounding of doubles is not
      modelled).  Budget, costs and levels are integers ([Z]).
    - A DOM element looked up by the source and guarded by [if (element)]
      is an [option]: [None] is a page without that element.  The initial
      content of the page ([index.html]) is a parameter of every theorem.
    - An [async] function is cut at its [await]: [f_begin] runs to the
      await and records the requests it sent, [f_resume] is the
      continuation and takes the outcome of the awaited call.  Handlers run
      to completion, so a run of the page is a list of events (user
      actions and settlements of pending requests) folded over the state. *)

From Stdlib Require Import ZArith QArith Qround Qabs Lia Sorted.
From stdpp Require Import base option list gmap strings pretty.

Local Open Scope Z_scope.

(* ===================================================================== *)
(** ** JavaScript values shared by the modules                            *)
(* ===================================================================== *)

Module Js.

(** What an awaited promise settles to: a value, or a thrown [Error]
    with its [message]. *)
Inductive Outcome (A : Type) : Type :=
| Resolved (value : A)
| Rejected (message : string).
Arguments Resolved {A} value.
Arguments Rejected {A} message.

(** How a synchronous block ends. *)
Inductive Completion : Type :=
| Normal
| Threw (message : string).

(** The result of an arithmetic expression that may involve
    [undefined]. *)
Inductive Number : Type :=
| Finite (q : Q)
| NaN.

(** [baseValue + x] where [baseValue] was read from an object and is
    [undefined] when the key is missing. *)
Definition add (baseValue : option Q) (x : Q) : Number :=
  match baseValue with
  | Some v => Finite (v + x)
  | None => NaN
  end.

(** [Math.round] on a property that may be missing. *)
Definition round (x : option Q) : Number :=
  match x with
  | Some v => Finite (inject_Z (Qfloor (v + (1 # 2))))
  | None => NaN
  end.

Definition sub (x : Number) (y : Q) : Number :=
  match x with
  | Finite v => Finite (v - y)
  | NaN => NaN
  end.

(** Pieces of a template literal: the formatting built-ins are kept
    symbolic, the literal parts are strings. *)
Inductive Piece : Type :=
| Lit (s : string)               (* literal text *)
| Str (q : Q)                    (* `${x}` *)
| Fixed (digits : nat) (q : Q)   (* x.toFixed(digits) *)
| Locale (x : Number)            (* x.toLocaleString() *)
| LocaleUS (decimals : nat) (q : Q). (* x.toLocaleString('en-US', ...) *)

Definition Text : Type := list Piece.

(** Truthiness of a value that is [null] or a string. *)
Definition truthy (s : option string) : bool :=
  match s with
  | Some v => negb (String.eqb v "")
  | None => false
  end.

Definition ltb (x y : Q) : bool := negb (Qle_bool y x).

(** The promise was rejected. *)
Definition rejected {A : Type} (o : Outcome A) : Prop :=
  match o with
  | Resolved _ => False
  | Rejected _ => True
  end.

(** The page has the element. *)
Definition present {A : Type} (element : option A) : bool :=
  match element with
  | Some _ => true
  | None => false
  end.

(** [element.prop = v] behind [if (element)]. *)
Definition write {A : Type} (v : A) (element : option A) : option A :=
  match element with
  | Some _ => Some v
  | None => None
  end.

End Js.

Import Js.

(* ===================================================================== *)
(** ** js/api-client.js                                                   *)
(* ===================================================================== *)

Module Api.

(** Response of [POST /predict]. *)
Record Prediction : Type := {
  municipality_name : string;
  predicted_dropout_rate : Q;
  predicted_students_impacted : Q;
  target_year : Z;
  input_parameters : gmap string Q;
  department_code : string
}.

(** Body of [POST /predict]; [scenario_adjustments] is [None] when the
    field is not put in the body. *)
Record PredictBody : Type := {
  body_municipality_name : option string;
  body_target_year : Z;
  scenario_adjustments : option (gmap string Number)
}.

Inductive Request : Type :=
| GetNational
| GetDepartments
| GetHistory (query : option string)
| PostPredict (body : PredictBody).

(** [predictDropout(municipalityName, targetYear = 2025,
    scenarioAdjustments = null)]: the request it sends. *)
Definition predictDropout (municipalityName : option string)
    (targetYear : Z) (scenarioAdjustments : option (gmap string Number))
    : Request :=
  PostPredict
    {| body_municipality_name := municipalityName;
       body_target_year := targetYear;
       scenario_adjustments :=
         match scenarioAdjustments with
         | Some adjustments => Some adjustments
         | None => None
         end |}.

(** [getHistoricalTrends(departmentCode = null)]: the query string is
    added only for a truthy code. *)
Definition getHistoricalTrends (departmentCode : option string) : Request :=
  GetHistory (if truthy departmentCode then departmentCode else None).

Definition getNationalAnalytics : Request := GetNational.
Definition getDepartmentAnalytics : Request := GetDepartments.

End Api.

(* ===================================================================== *)
(** ** js/translations.js                                                 *)
(* ===================================================================== *)

Module Translations.

(** The two supported languages. *)
Inductive Lang : Type :=
| en
| es.

(** The entries of [translations] that [dashboard.js] and [charts.js]
    read through [t]. *)
Definition translations (lang : Lang) : list (string * string) :=
  match lang with
  | en =>
      [("dropoutRate", "Dropout Rate %");
       ("students", "Students");
       ("funnelRatio", "Funnel Efficiency");
       ("vsLastYear", "vs last year")]
  | es =>
      [("dropoutRate", "Tasa de Deserción %");
       ("students", "Estudiantes");
       ("funnelRatio", "Eficiencia del Embudo");
       ("vsLastYear", "vs año anterior")]
  end.

Fixpoint entry (key : string) (table : list (string * string))
    : option string :=
  match table with
  | [] => None
  | (k, v) :: rest => if String.eqb k key then Some v else entry key rest
  end.

(** [t(key)] under the current language: [translations[lang][key] || key]. *)
Definition t (currentLanguage : Lang) (key : string) : string :=
  match entry key (translations currentLanguage) with
  | Some text => if String.eqb text "" then key else text
  | None => key
  end.

End Translations.

(* ===================================================================== *)
(** ** js/charts.js                                                       *)
(* ===================================================================== *)

Module Charts.
Import Translations.

(** One dataset of a chart configuration: its kind, label and data.  The
    colours and scales of the configuration are constants and are left
    out. *)
Record Dataset : Type := {
  dataset_type : string;
  dataset_label : string;
  dataset_data : list Q
}.

Record ChartConfig : Type := {
  chart_type : string;
  chart_labels : list Z;
  chart_datasets : list Dataset
}.

Definition getTrendChartConfig (lang : Lang) (years : list Z)
    (dropoutRates : list Q) : ChartConfig :=
  {| chart_type := "line";
     chart_labels := years;
     chart_datasets :=
       [{| dataset_type := "line";
           dataset_label := t lang "dropoutRate";
           dataset_data := dropoutRates |}] |}.

Definition getFunnelChartConfig (lang : Lang) (years : list Z)
    (studentCounts funnelRatios : list Q) : ChartConfig :=
  {| chart_type := "bar";
     chart_labels := years;
     chart_datasets :=
       [{| dataset_type := "bar";
           dataset_label := t lang "students";
           dataset_data := studentCounts |};
        {| dataset_type := "line";
           dataset_label := t lang "funnelRatio";
           dataset_data := funnelRatios |}] |}.

(** [formatNumber(num, decimals = 0)] *)
Definition formatNumber (num : Q) (decimals : nat) : Piece :=
  LocaleUS decimals num.

(** [getRiskColor(dropoutRate)] *)
Definition getRiskColor (dropoutRate : Q) : string :=
  if ltb dropoutRate 3 then "#10b981"        (* Low - emerald *)
  else if ltb dropoutRate 6 then "#f59e0b"   (* Medium - amber *)
  else "#ef4444".                            (* High - red *)

Record RiskLabels : Type := {
  low : string;
  medium : string;
  high : string
}.

Definition labels (lang : Lang) : RiskLabels :=
  match lang with
  | en => {| low := "Low"; medium := "Medium"; high := "High" |}
  | es => {| low := "Bajo"; medium := "Medio"; high := "Alto" |}
  end.

(** [getRiskLabel(dropoutRate, lang = 'en')] *)
Definition getRiskLabel (dropoutRate : Q) (lang : Lang) : string :=
  if ltb dropoutRate 3 then low (labels lang)
  else if ltb dropoutRate 6 then medium (labels lang)
  else high (labels lang).


End Charts.

(* ===================================================================== *)
(** ** js/dashboard.js                                                    *)
(* ===================================================================== *)

Module Dashboard.
Import Api Translations Charts.

(** *** Analytics resources *)

(** Response of [GET /analytics/national].  [year_over_year_change] may
    be [null]. *)
Record NationalStats : Type := {
  current_year : Z;
  national_dropout_rate : Q;
  total_students : Q;
  year_over_year_change : option Q;
  funnel_efficiency : Q
}.

Record DepartmentStat : Type := {
  code : string;
  name : string;
  dropout_rate : Q;
  student_count : Q;
  risk_level : string
}.

(** Response of [GET /analytics/departments]. *)
Record DepartmentAnalytics : Type := {
  departments : list DepartmentStat;
  departments_count : Z
}.

Record HistoricalPoint : Type := {
  year : Z;
  point_dropout_rate : Q;
  students : Q;
  funnel_ratio : Q
}.

(** Response of [GET /analytics/history]. *)
Record HistoricalTrends : Type := {
  data_points : list HistoricalPoint;   (* the [data] array *)
  trends_count : Z;
  trends_department_code : option string
}.

(** [Dashboard.data] once loaded. *)
Record Data : Type := {
  national : NationalStats;
  department_analytics : DepartmentAnalytics;   (* the [departments] key *)
  history : HistoricalTrends
}.

Record ChartSlots : Type := {
  trend : option ChartConfig;    (* [Dashboard.charts.trend] *)
  funnel : option ChartConfig    (* [Dashboard.charts.funnel] *)
}.

(** The [Dashboard] object. *)
Record State : Type := {
  data : option Data;
  charts : ChartSlots;
  loaded : bool;
  selectedDepartment : option string
}.

Definition initial_state : State :=
  {| data := None;
     charts := {| trend := None; funnel := None |};
     loaded := false;
     selectedDepartment := None |}.

(** *** The part of the page the dashboard works on *)

(** One [.dept-item] of the department list. *)
Record DeptItem : Type := {
  item_code : string;            (* data-dept-code *)
  item_name : string;
  item_rate : Text;              (* `${rate.toFixed(1)}%` *)
  item_color : string;
  item_label : string;           (* text of the risk badge *)
  item_class : string;           (* class of the risk badge *)
  item_selected : bool
}.

(** The content of [#departmentList] after a render: the 'all' item and
    one item per department. *)
Record DeptList : Type := {
  all_selected : bool;
  all_text : string;
  items : list DeptItem
}.

(** The [.kpi-card] around [#kpi-risk]: the text of its [.kpi-label], if
    it has one. *)
Record RiskCard : Type := {
  kpi_label : option string
}.

Record Page : Type := {
  kpi_dropout : option Text;
  kpi_dropout_change : option (Text * string);   (* textContent, className *)
  kpi_students : option Text;
  kpi_funnel : option Text;
  kpi_risk : option Text;
  kpi_risk_card : option RiskCard;
  trendChart : bool;                  (* the canvas exists *)
  funnelChart : bool;                 (* the canvas exists *)
  departmentList : option (option DeptList);   (* inner None: as in index.html *)
  headerTitle : option string;        (* .dashboard-header h2 *)
  trendTitle : option string;         (* .chart-card-large h3 *)
  funnelTitle : option string;        (* .chart-card-full h3 *)
  dashboardLoading : option string;   (* style.display *)
  dashboardError : option (string * string);   (* textContent, style.display *)
  viewDashboard : option (string * string)     (* opacity, pointerEvents *)
}.

(** The five KPI value elements. *)
Record KpiValues : Type := {
  value_dropout : option Text;
  value_dropout_change : option (Text * string);
  value_students : option Text;
  value_funnel : option Text;
  value_risk : option Text
}.

Definition kpi_values (p : Page) : KpiValues :=
  {| value_dropout := kpi_dropout p;
     value_dropout_change := kpi_dropout_change p;
     value_students := kpi_students p;
     value_funnel := kpi_funnel p;
     value_risk := kpi_risk p |}.

Definition with_kpis (v : KpiValues) (card : option RiskCard) (p : Page)
    : Page :=
  {| kpi_dropout := value_dropout v;
     kpi_dropout_change := value_dropout_change v;
     kpi_students := value_students v;
     kpi_funnel := value_funnel v;
     kpi_risk := value_risk v;
     kpi_risk_card := card;
     trendChart := trendChart p;
     funnelChart := funnelChart p;
     departmentList := departmentList p;
     headerTitle := headerTitle p;
     trendTitle := trendTitle p;
     funnelTitle := funnelTitle p;
     dashboardLoading := dashboardLoading p;
     dashboardError := dashboardError p;
     viewDashboard := viewDashboard p |}.

Definition with_departmentList (v : option (option DeptList)) (p : Page)
    : Page :=
  {| kpi_dropout := kpi_dropout p;
     kpi_dropout_change := kpi_dropout_change p;
     kpi_students := kpi_students p;
     kpi_funnel := kpi_funnel p;
     kpi_risk := kpi_risk p;
     kpi_risk_card := kpi_risk_card p;
     trendChart := trendChart p;
     funnelChart := funnelChart p;
     departmentList := v;
     headerTitle := headerTitle p;
     trendTitle := trendTitle p;
     funnelTitle := funnelTitle p;
     dashboardLoading := dashboardLoading p;
     dashboardError := dashboardError p;
     viewDashboard := viewDashboard p |}.

Definition with_titles (header trendT funnelT : option string) (p : Page)
    : Page :=
  {| kpi_dropout := kpi_dropout p;
     kpi_dropout_change := kpi_dropout_change p;
     kpi_students := kpi_students p;
     kpi_funnel := kpi_funnel p;
     kpi_risk := kpi_risk p;
     kpi_risk_card := kpi_risk_card p;
     trendChart := trendChart p;
     funnelChart := funnelChart p;
     departmentList := departmentList p;
     headerTitle := header;
     trendTitle := trendT;
     funnelTitle := funnelT;
     dashboardLoading := dashboardLoading p;
     dashboardError := dashboardError p;
     viewDashboard := viewDashboard p |}.

Definition with_status (loading : option string)
    (error : option (string * string)) (view : option (string * string))
    (p : Page) : Page :=
  {| kpi_dropout := kpi_dropout p;
     kpi_dropout_change := kpi_dropout_change p;
     kpi_students := kpi_students p;
     kpi_funnel := kpi_funnel p;
     kpi_risk := kpi_risk p;
     kpi_risk_card := kpi_risk_card p;
     trendChart := trendChart p;
     funnelChart := funnelChart p;
     departmentList := departmentList p;
     headerTitle := headerTitle p;
     trendTitle := trendTitle p;
     funnelTitle := funnelTitle p;
     dashboardLoading := loading;
     dashboardError := error;
     viewDashboard := view |}.

(** *** Display helpers *)

Definition showLoading (show : bool) (p : Page) : Page :=
  with_status (write (if show then "flex" else "none") (dashboardLoading p))
    (dashboardError p) (viewDashboard p) p.

(** [showError(message)]: it also hides the loading indicator. *)
Definition showError (message : string) (p : Page) : Page :=
  showLoading false
    (with_status (dashboardLoading p)
       (write (message, "block") (dashboardError p)) (viewDashboard p) p).

(** The two style assignments on [.view-dashboard]. *)
Definition setInteraction (opacity pointerEvents : string) (p : Page)
    : Page :=
  with_status (dashboardLoading p) (dashboardError p)
    (write (opacity, pointerEvents) (viewDashboard p)) p.

(** *** KPI cards *)

(** The icon and class of a year-over-year change. *)
Definition changeIcon (change : Q) : string :=
  if ltb 0 change then "↑" else if ltb change 0 then "↓" else "→".

Definition changeClass (change : Q) : string :=
  if ltb 0 change then "negative"
  else if ltb change 0 then "positive" else "neutral".

Definition changeText (lang : Lang) (change : Q) : Text * string :=
  ([Lit (changeIcon change); Lit " "; Fixed 1 (Qabs change); Lit "% ";
    Lit (t lang "vsLastYear")],
   "kpi-change " +:+ changeClass change).

(** [departments.departments.filter(d => d.dropout_rate > 6).length] *)
Definition highRiskCount (depts : list DepartmentStat) : nat :=
  length (List.filter (fun d => ltb 6 (dropout_rate d)) depts).

(** [renderKPIs()] on loaded data. *)
Definition renderKPIs (lang : Lang) (d : Data) (p : Page) : Page :=
  let change :=
    match year_over_year_change (national d) with
    | Some c => c
    | None => 0%Q
    end in
  with_kpis
    {| value_dropout :=
         write [Str (national_dropout_rate (national d)); Lit "%"]
               (kpi_dropout p);
       value_dropout_change :=
         match kpi_dropout p with
         | Some _ => write (changeText lang change) (kpi_dropout_change p)
         | None => kpi_dropout_change p
         end;
       value_students :=
         write [formatNumber (total_students (national d)) 0] (kpi_students p);
       value_funnel :=
         write [Fixed 1 (funnel_efficiency (national d) * 100); Lit "%"]
               (kpi_funnel p);
       value_risk :=
         write [Str (inject_Z (Z.of_nat
                  (highRiskCount (departments (department_analytics d)))))]
               (kpi_risk p) |}
    (kpi_risk_card p) p.

(** [array.find(d => d.code === departmentCode)] *)
Definition findDepartment (departmentCode : string)
    (depts : list DepartmentStat) : option DepartmentStat :=
  List.find (fun d => String.eqb (code d) departmentCode) depts.

(** [updateKPIsForDepartment(departmentCode, history)] on loaded data. *)
Definition updateKPIsForDepartment (lang : Lang) (d : Data)
    (departmentCode : option string) (trends : HistoricalTrends) (p : Page)
    : Page :=
  if negb (truthy departmentCode) then renderKPIs lang d p
  else
    let codeText := default "" departmentCode in
    let dept := findDepartment codeText (departments (department_analytics d)) in
    let latestYear := last (data_points trends) in
    let previousYear :=
      if (1 <? length (data_points trends))%nat
      then data_points trends !! (length (data_points trends) - 2)%nat
      else None in
    let riskCard :=
      match kpi_risk p with
      | Some _ => kpi_risk_card p
      | None => None
      end in
    with_kpis
      {| value_dropout :=
           match latestYear with
           | Some latest =>
               write [Fixed 2 (point_dropout_rate latest); Lit "%"]
                     (kpi_dropout p)
           | None => kpi_dropout p
           end;
         value_dropout_change :=
           match kpi_dropout p, latestYear, previousYear with
           | Some _, Some latest, Some previous =>
               write (changeText lang
                        (point_dropout_rate latest - point_dropout_rate previous))
                     (kpi_dropout_change p)
           | _, _, _ => kpi_dropout_change p
           end;
         value_students :=
           match latestYear with
           | Some latest =>
               write [formatNumber (students latest) 0] (kpi_students p)
           | None => kpi_students p
           end;
         value_funnel :=
           match latestYear with
           | Some latest =>
               write [Fixed 1 (funnel_ratio latest * 100); Lit "%"]
                     (kpi_funnel p)
           | None => kpi_funnel p
           end;
         value_risk :=
           match riskCard with
           | Some _ =>
               write
                 (if truthy departmentCode then
                    [Lit (match dept with
                          | Some found => code found
                          | None => codeText
                          end)]
                  else
                    [Str (inject_Z (Z.of_nat
                       (highRiskCount (departments (department_analytics d)))))])
                 (kpi_risk p)
           | None => kpi_risk p
           end |}
      (match riskCard with
       | Some card =>
           Some {| kpi_label :=
                     write (if truthy departmentCode then
                              match lang with
                              | en => "DEPARTMENT CODE"
                              | es => "CÓDIGO DEPARTAMENTO"
                              end
                            else
                              match lang with
                              | en => "HIGH-RISK DEPARTMENTS"
                              | es => "DEPARTAMENTOS DE ALTO RIESGO"
                              end)
                           (kpi_label card) |}
       | None => kpi_risk_card p
       end)
      p.

(** *** Charts *)

Definition with_charts (v : ChartSlots) (s : State) : State :=
  {| data := data s;
     charts := v;
     loaded := loaded s;
     selectedDepartment := selectedDepartment s |}.

(** [createTrendChart()]: nothing without the canvas; otherwise a new
    chart replaces the one in [Dashboard.charts.trend]. *)
Definition createTrendChart (lang : Lang) (d : Data) (p : Page) (s : State)
    : State :=
  if trendChart p then
    let years := year <$> data_points (history d) in
    let dropoutRates := point_dropout_rate <$> data_points (history d) in
    with_charts
      {| trend := Some (getTrendChartConfig lang years dropoutRates);
         funnel := funnel (charts s) |} s
  else s.

(** [createFunnelChart()] *)
Definition createFunnelChart (lang : Lang) (d : Data) (p : Page) (s : State)
    : State :=
  if funnelChart p then
    let years := year <$> data_points (history d) in
    let studentCounts := students <$> data_points (history d) in
    let funnelRatios := funnel_ratio <$> data_points (history d) in
    with_charts
      {| trend := trend (charts s);
         funnel :=
           Some (getFunnelChartConfig lang years studentCounts funnelRatios) |} s
  else s.

Definition renderCharts (lang : Lang) (d : Data) (p : Page) (s : State)
    : State :=
  createFunnelChart lang d p (createTrendChart lang d p s).

(** *** Department list *)

(** [array.sort((a, b) => b.dropout_rate - a.dropout_rate)]: the sort of
    the platform is stable, so its result is that of any stable sort by
    descending rate; this one inserts each department before the first one
    that does not have a greater rate. *)
Fixpoint insertByRate (d : DepartmentStat) (sorted : list DepartmentStat)
    : list DepartmentStat :=
  match sorted with
  | [] => [d]
  | x :: rest =>
      if ltb (dropout_rate d) (dropout_rate x)
      then x :: insertByRate d rest
      else d :: x :: rest
  end.

Definition sortByRate (depts : list DepartmentStat) : list DepartmentStat :=
  foldr insertByRate [] depts.

(** [String.prototype.toLowerCase] on the letters A-Z. *)
Definition lowerAscii (c : Ascii.ascii) : Ascii.ascii :=
  let n := Ascii.nat_of_ascii c in
  if ((65 <=? n) && (n <=? 90))%nat then Ascii.ascii_of_nat (n + 32) else c.

Fixpoint toLowerCase (s : string) : string :=
  match s with
  | EmptyString => EmptyString
  | String c rest => String (lowerAscii c) (toLowerCase rest)
  end.

Definition renderItem (lang : Lang) (selected : option string)
    (dept : DepartmentStat) : DeptItem :=
  let riskColor := getRiskColor (dropout_rate dept) in
  let riskLabel := getRiskLabel (dropout_rate dept) lang in
  {| item_code := code dept;
     item_name := name dept;
     item_rate := [Fixed 1 (dropout_rate dept); Lit "%"];
     item_color := riskColor;
     item_label := riskLabel;
     item_class := toLowerCase riskLabel;
     item_selected :=
       match selected with
       | Some c => String.eqb c (code dept)
       | None => false
       end |}.

(** [renderDepartmentList()] on loaded data. *)
Definition renderDepartmentList (lang : Lang) (s : State) (d : Data)
    (p : Page) : Page :=
  match departmentList p with
  | None => p
  | Some _ =>
      let sortedDepts := sortByRate (departments (department_analytics d)) in
      with_departmentList
        (Some (Some
           {| all_selected :=
                match selectedDepartment s with
                | None => true
                | Some _ => false
                end;
              all_text :=
                match lang with
                | en => "🇨🇴 All Departments (National)"
                | es => "🇨🇴 Todos los Departamentos (Nacional)"
                end;
              items := renderItem lang (selectedDepartment s) <$> sortedDepts |}))
        p
  end.

(** *** Header and chart titles *)

Definition departmentName (d : Data) (departmentCode : string) : string :=
  match findDepartment departmentCode (departments (department_analytics d)) with
  | Some dept => name dept
  | None => departmentCode
  end.

(** [updateDashboardHeader(departmentCode)] *)
Definition updateDashboardHeader (lang : Lang) (d : Data)
    (departmentCode : option string) (p : Page) : Page :=
  with_titles
    (write
       (if truthy departmentCode then
          let deptName := departmentName d (default "" departmentCode) in
          match lang with
          | en => deptName +:+ " Department Analytics"
          | es => "Analítica del Departamento de " +:+ deptName
          end
        else
          match lang with
          | en => "National Analytics Dashboard"
          | es => "Panel de Analítica Nacional"
          end)
       (headerTitle p))
    (trendTitle p) (funnelTitle p) p.

(** [updateChartTitles(departmentCode)] *)
Definition updateChartTitles (lang : Lang) (d : Data)
    (departmentCode : option string) (p : Page) : Page :=
  let deptName := departmentName d (default "" departmentCode) in
  with_titles (headerTitle p)
    (write
       (if truthy departmentCode then
          match lang with
          | en => "Historical Dropout Trend - " +:+ deptName
          | es => "Tendencia Histórica de Deserción - " +:+ deptName
          end
        else
          match lang with
          | en => "Historical Dropout Trend (2011-2024)"
          | es => "Tendencia Histórica de Deserción (2011-2024)"
          end)
       (trendTitle p))
    (write
       (if truthy departmentCode then
          match lang with
          | en => "The 'Funnel Effect' Analysis - " +:+ deptName
          | es => "Análisis del 'Efecto Embudo' - " +:+ deptName
          end
        else
          match lang with
          | en => "The 'Funnel Effect' Analysis"
          | es => "Análisis del 'Efecto Embudo'"
          end)
       (funnelTitle p))
    p.

(** *** The dashboard as a transition system *)

(** A call the dashboard is waiting for. *)
Inductive Pending : Type :=
| AwaitInit                                     (* the Promise.all of loadData *)
| AwaitFilter (departmentCode : option string). (* getHistoricalTrends *)

Record World : Type := {
  dashboard : State;
  page : Page;
  currentLanguage : Lang;
  pending : list Pending;
  sent : list Request       (* every request issued so far, oldest first *)
}.

Definition initial (index_html : Page) (lang : Lang) : World :=
  {| dashboard := initial_state;
     page := index_html;
     currentLanguage := lang;
     pending := [];
     sent := [] |}.

Definition update (s : State) (p : Page) (w : World) : World :=
  {| dashboard := s;
     page := p;
     currentLanguage := currentLanguage w;
     pending := pending w;
     sent := sent w |}.

Definition send (requests : list Request) (waiter : Pending) (w : World)
    : World :=
  {| dashboard := dashboard w;
     page := page w;
     currentLanguage := currentLanguage w;
     pending := pending w ++ [waiter];
     sent := sent w ++ requests |}.

Definition settled (i : nat) (w : World) : World :=
  {| dashboard := dashboard w;
     page := page w;
     currentLanguage := currentLanguage w;
     pending := delete i (pending w);
     sent := sent w |}.

(** The three calls inside [Promise.all([...])] of [loadData]: all are
    made before anything is awaited. *)
Definition loadData_requests : list Request :=
  [getNationalAnalytics; getDepartmentAnalytics; getHistoricalTrends None].

(** [loadData()] after its [await]: [Promise.all] resolves when the three
    calls resolved and rejects when one of them rejected; the [catch]
    throws a new error in both cases of rejection. *)
Definition loadData_resume (nationalR : Outcome NationalStats)
    (departmentsR : Outcome DepartmentAnalytics)
    (historyR : Outcome HistoricalTrends) : Outcome Data :=
  match nationalR, departmentsR, historyR with
  | Resolved n, Resolved d, Resolved h =>
      Resolved {| national := n; department_analytics := d; history := h |}
  | _, _, _ => Rejected "Failed to load analytics data from API"
  end.

(** [init()] up to the [await] in [loadData]. *)
Definition init_begin (w : World) : World :=
  if loaded (dashboard w) then w
  else
    send loadData_requests AwaitInit
      (update (dashboard w) (showLoading true (page w)) w).

Definition with_loaded (v : bool) (s : State) : State :=
  {| data := data s;
     charts := charts s;
     loaded := v;
     selectedDepartment := selectedDepartment s |}.

Definition with_data (v : option Data) (s : State) : State :=
  {| data := v;
     charts := charts s;
     loaded := loaded s;
     selectedDepartment := selectedDepartment s |}.

(** [init()] after that [await]. *)
Definition init_resume (nationalR : Outcome NationalStats)
    (departmentsR : Outcome DepartmentAnalytics)
    (historyR : Outcome HistoricalTrends) (w : World) : World :=
  let lang := currentLanguage w in
  match loadData_resume nationalR departmentsR historyR with
  | Resolved d =>
      let s := with_data (Some d) (dashboard w) in
      let p := renderKPIs lang d (page w) in
      let s := renderCharts lang d p s in
      let p := renderDepartmentList lang s d p in
      update (with_loaded true s) (showLoading false p) w
  | Rejected message =>
      update (dashboard w)
        (showError ("Error loading analytics data: " +:+ message) (page w)) w
  end.

Definition with_selectedDepartment (v : option string) (s : State) : State :=
  {| data := data s;
     charts := charts s;
     loaded := loaded s;
     selectedDepartment := v |}.

Definition with_history (h : HistoricalTrends) (d : Data) : Data :=
  {| national := national d;
     department_analytics := department_analytics d;
     history := h |}.

(** [filterByDepartment(departmentCode)] up to its [await]. *)
Definition filterByDepartment_begin (departmentCode : option string)
    (w : World) : World :=
  send [getHistoricalTrends departmentCode] (AwaitFilter departmentCode)
    (update (with_selectedDepartment departmentCode (dashboard w))
       (setInteraction "0.6" "none" (page w)) w).

(** The [catch] block of [filterByDepartment]. *)
Definition filterByDepartment_catch (w : World) : World :=
  update (dashboard w)
    (setInteraction "1" "auto" (showError "Error loading department data" (page w)))
    w.

(** [filterByDepartment(departmentCode)] after its [await]. *)
Definition filterByDepartment_resume (departmentCode : option string)
    (historyR : Outcome HistoricalTrends) (w : World) : World :=
  let lang := currentLanguage w in
  match historyR with
  | Resolved trends =>
      match data (dashboard w) with
      | None => filterByDepartment_catch w   (* Dashboard.data is null *)
      | Some d0 =>
          let d := with_history trends d0 in
          let s := with_data (Some d) (dashboard w) in
          let p := updateDashboardHeader lang d departmentCode (page w) in
          let p := updateKPIsForDepartment lang d departmentCode trends p in
          let s := createFunnelChart lang d p (createTrendChart lang d p s) in
          let p := updateChartTitles lang d departmentCode p in
          let p := renderDepartmentList lang s d p in
          update s (setInteraction "1" "auto" p) w
      end
  | Rejected _ => filterByDepartment_catch w
  end.

(** What a pending call of the dashboard settles to. *)
Inductive Response : Type :=
| InitResponses (nationalR : Outcome NationalStats)
    (departmentsR : Outcome DepartmentAnalytics)
    (historyR : Outcome HistoricalTrends)
| HistoryResponse (historyR : Outcome HistoricalTrends).

(** [filterByDepartment] as one call whose request settles before
    anything else happens. *)
Definition filterByDepartment (departmentCode : option string)
    (historyR : Outcome HistoricalTrends) (w : World) : World :=
  let w := filterByDepartment_begin departmentCode w in
  filterByDepartment_resume departmentCode historyR
    (settled (length (pending w) - 1) w).

(** [init] as one call whose requests settle before anything else
    happens. *)
Definition init (nationalR : Outcome NationalStats)
    (departmentsR : Outcome DepartmentAnalytics)
    (historyR : Outcome HistoricalTrends) (w : World) : World :=
  if loaded (dashboard w) then w
  else
    let w := init_begin w in
    init_resume nationalR departmentsR historyR
      (settled (length (pending w) - 1) w).

(** Which of the KPI value elements the page has. *)
Definition kpi_elements (p : Page) : list bool :=
  [present (kpi_dropout p); present (kpi_dropout_change p);
   present (kpi_students p); present (kpi_funnel p); present (kpi_risk p)].

(** *** Language changes *)




(** The order of the rendered list: no department before one with a
    greater rate. *)
Definition descending (a b : DepartmentStat) : Prop :=
  (dropout_rate b <= dropout_rate a)%Q.

(** The departments with a given rate, in the order of the list. *)
Definition withRate (rate : Q) (depts : list DepartmentStat)
    : list DepartmentStat :=
  List.filter (fun d => Qeq_bool (dropout_rate d) rate) depts.

(** The number of items marked as selected. *)
Definition selectedItems (view : DeptList) : nat :=
  length (List.filter item_selected (items view)).

(** *** Data for examples *)

Definition example_national : NationalStats :=
  {| current_year := 2024;
     national_dropout_rate := 5.1;
     total_students := 9500000;
     year_over_year_change := Some (-0.3)%Q;
     funnel_efficiency := 0.72 |}.

Definition example_department (departmentCode : string) (rate : Q)
    : DepartmentStat :=
  {| code := departmentCode;
     name := "Departamento " +:+ departmentCode;
     dropout_rate := rate;
     student_count := 100000;
     risk_level := "" |}.

(** Thirty departments with rates 2.0, 2.1, ... 4.9. *)
Definition example_others : list DepartmentStat :=
  (fun i : nat =>
     example_department (pretty (i + 30)%nat)
       (2 + inject_Z (Z.of_nat i) / 10)%Q) <$> seq 0 30.

(** The department list of the scenario of the specification: code 27 at
    8.9, one other department at 7.2, thirty more below 6. *)
Definition example_departments : DepartmentAnalytics :=
  {| departments :=
       take 12 example_others
       ++ [example_department "27" 8.9]
       ++ drop 12 example_others
       ++ [example_department "94" 7.2];
     departments_count := 32 |}.

Definition example_history (departmentCode : option string) (shift : Q)
    : HistoricalTrends :=
  {| data_points :=
       [{| year := 2022; point_dropout_rate := (4.0 + shift)%Q;
           students := 9300000; funnel_ratio := 0.70 |};
        {| year := 2023; point_dropout_rate := (4.6 + shift)%Q;
           students := 9400000; funnel_ratio := 0.71 |};
        {| year := 2024; point_dropout_rate := (5.1 + shift)%Q;
           students := 9500000; funnel_ratio := 0.72 |}];
     trends_count := 3;
     trends_department_code := departmentCode |}.

(** A dashboard view with all its elements. *)
Definition example_page : Page :=
  {| kpi_dropout := Some [];
     kpi_dropout_change := Some ([], "kpi-change");
     kpi_students := Some [];
     kpi_funnel := Some [];
     kpi_risk := Some [];
     kpi_risk_card := Some {| kpi_label := Some "HIGH-RISK DEPARTMENTS" |};
     trendChart := true;
     funnelChart := true;
     departmentList := Some None;
     headerTitle := Some "National Analytics Dashboard";
     trendTitle := Some "Historical Dropout Trend (2011-2024)";
     funnelTitle := Some "The 'Funnel Effect' Analysis";
     dashboardLoading := Some "none";
     dashboardError := Some ("", "none");
     viewDashboard := Some ("", "") |}.

(** The dashboard after a successful [init]. *)
Definition example_ready : World :=
  init (Resolved example_national) (Resolved example_departments)
    (Resolved (example_history None 0)) (initial example_page en).

(** The data of a world, for examples ([example_national] with no
    departments and no history when nothing is loaded). *)
Definition data_of (w : World) : Data :=
  default
    {| national := example_national;
       department_analytics := {| departments := []; departments_count := 0 |};
       history := example_history None 0 |}
    (data (dashboard w)).

End Dashboard.

(* ===================================================================== *)
(** ** js/app.js: the investment simulator                                *)
(* ===================================================================== *)

Module App.
Import Api.

(** The keys of [state.investments] and of [INVESTMENT_CONFIG]. *)
Inductive InvestmentKind : Type :=
| infrastructure
| quality
| coverage
| staffing.

#[global] Instance InvestmentKind_eq_dec : EqDecision InvestmentKind.
Proof. solve_decision. Defined.

(** An object with exactly these four keys. *)
Record PerKind (A : Type) : Type := {
  at_infrastructure : A;
  at_quality : A;
  at_coverage : A;
  at_staffing : A
}.
Arguments Build_PerKind {A} _ _ _ _.
Arguments at_infrastructure {A} _.
Arguments at_quality {A} _.
Arguments at_coverage {A} _.
Arguments at_staffing {A} _.

(** [object[type]] *)
Definition get {A : Type} (type : InvestmentKind) (object : PerKind A) : A :=
  match type with
  | infrastructure => at_infrastructure object
  | quality => at_quality object
  | coverage => at_coverage object
  | staffing => at_staffing object
  end.

(** [object[type] = v] *)
Definition set {A : Type} (type : InvestmentKind) (v : A)
    (object : PerKind A) : PerKind A :=
  match type with
  | infrastructure =>
      Build_PerKind v (at_quality object) (at_coverage object) (at_staffing object)
  | quality =>
      Build_PerKind (at_infrastructure object) v (at_coverage object) (at_staffing object)
  | coverage =>
      Build_PerKind (at_infrastructure object) (at_quality object) v (at_staffing object)
  | staffing =>
      Build_PerKind (at_infrastructure object) (at_quality object) (at_coverage object) v
  end.

(** The keys in the order of [Object.entries]. *)
Definition entries : list InvestmentKind :=
  [infrastructure; quality; coverage; staffing].

(** One body of a [for ... of Object.entries(state.investments)] loop
    that only touches what belongs to its own key. *)
Definition for_each {A B : Type} (f : InvestmentKind -> A -> B -> B)
    (investments : PerKind A) (targets : PerKind B) : PerKind B :=
  {| at_infrastructure :=
       f infrastructure (at_infrastructure investments) (at_infrastructure targets);
     at_quality := f quality (at_quality investments) (at_quality targets);
     at_coverage := f coverage (at_coverage investments) (at_coverage targets);
     at_staffing := f staffing (at_staffing investments) (at_staffing targets) |}.

Record InvestmentConfig : Type := {
  cost : Z;
  parameter : string;
  improvement : Q
}.

Definition INVESTMENT_CONFIG : PerKind InvestmentConfig :=
  {| at_infrastructure :=
       {| cost := 3000; parameter := "primaria_to_media_ratio"; improvement := 0.05 |};
     at_quality :=
       {| cost := 1500; parameter := "repitencia_lag_1"; improvement := -0.5 |};
     at_coverage :=
       {| cost := 1000; parameter := "over_age_gap"; improvement := -1.0 |};
     at_staffing :=
       {| cost := 4000; parameter := "classroom_density"; improvement := -2.0 |} |}.

(** The simulator [state] object. *)
Record SimulationState : Type := {
  budget : Z;
  selectedDepartment : option string;
  selectedMunicipality : option string;
  baseline : option Prediction;
  currentPrediction : option Prediction;
  investments : PerKind Z
}.

Definition initial_state : SimulationState :=
  {| budget := 10000;
     selectedDepartment := None;
     selectedMunicipality := None;
     baseline := None;
     currentPrediction := None;
     investments := Build_PerKind 0 0 0 0 |}.

Definition with_budget (v : Z) (s : SimulationState) : SimulationState :=
  {| budget := v;
     selectedDepartment := selectedDepartment s;
     selectedMunicipality := selectedMunicipality s;
     baseline := baseline s;
     currentPrediction := currentPrediction s;
     investments := investments s |}.

Definition with_investments (v : PerKind Z) (s : SimulationState)
    : SimulationState :=
  {| budget := budget s;
     selectedDepartment := selectedDepartment s;
     selectedMunicipality := selectedMunicipality s;
     baseline := baseline s;
     currentPrediction := currentPrediction s;
     investments := v |}.

Definition with_currentPrediction (v : option Prediction)
    (s : SimulationState) : SimulationState :=
  {| budget := budget s;
     selectedDepartment := selectedDepartment s;
     selectedMunicipality := selectedMunicipality s;
     baseline := baseline s;
     currentPrediction := v;
     investments := investments s |}.

Definition with_baseline (v : option Prediction) (s : SimulationState)
    : SimulationState :=
  {| budget := budget s;
     selectedDepartment := selectedDepartment s;
     selectedMunicipality := selectedMunicipality s;
     baseline := v;
     currentPrediction := currentPrediction s;
     investments := investments s |}.

Definition with_selectedMunicipality (v : option string)
    (s : SimulationState) : SimulationState :=
  {| budget := budget s;
     selectedDepartment := selectedDepartment s;
     selectedMunicipality := v;
     baseline := baseline s;
     currentPrediction := currentPrediction s;
     investments := investments s |}.

Definition with_selectedDepartment (v : option string)
    (s : SimulationState) : SimulationState :=
  {| budget := budget s;
     selectedDepartment := v;
     selectedMunicipality := selectedMunicipality s;
     baseline := baseline s;
     currentPrediction := currentPrediction s;
     investments := investments s |}.

(** *** The part of the page the simulator works on *)

(** A [.btn-invest] button: its [data-cost] attribute (read with
    [parseInt]), and what [updateInvestmentLevels] sets on it. *)
Record InvestButton : Type := {
  data_cost : Z;
  disabled : bool;
  textContent : string;
  maxed : bool;          (* class 'maxed' *)
  insufficient : bool    (* class 'insufficient' *)
}.

(** An [.investment-card]: its [.progress-step] elements (class 'active'
    or not) and its button.  The markup is taken as the selectors of
    [app.js] describe it: the [.btn-invest] button of a kind carries
    [data-investment] and [data-cost], it lies in the [.investment-card]
    that [updateInvestmentLevels] finds for that kind, and a page has at
    most one such card per kind. *)
Record InvestmentCard : Type := {
  progress_steps : list bool;
  btn_invest : InvestButton
}.

(** The elements [displayResults] and [updateBudgetWarning] write. *)
Record ResultTiles : Type := {
  statTiles : option string;            (* style.display *)
  investmentsSection : option string;   (* style.display *)
  currentRate : option Text;
  studentsAtRisk : option Text;
  studentsContinuing : option Text;
  municipalityName : option string;
  population : option Text;
  trendIndicator : option (Text * string);  (* textContent, className *)
  budgetWarning : option string         (* style.display *)
}.

Record Elements : Type := {
  budgetDisplay : option (Text * string);   (* textContent, style.color *)
  levelElements : PerKind (option Z);       (* #level-<type> *)
  investmentCards : PerKind (option InvestmentCard);
  errorMessage : option (string * string);  (* textContent, style.display *)
  loadingIndicator : option string;         (* style.display *)
  resultsContainer : option string;         (* style.display *)
  tiles : ResultTiles
}.

Definition with_budgetDisplay (v : option (Text * string)) (e : Elements)
    : Elements :=
  {| budgetDisplay := v;
     levelElements := levelElements e;
     investmentCards := investmentCards e;
     errorMessage := errorMessage e;
     loadingIndicator := loadingIndicator e;
     resultsContainer := resultsContainer e;
     tiles := tiles e |}.

Definition with_levels (l : PerKind (option Z))
    (c : PerKind (option InvestmentCard)) (e : Elements) : Elements :=
  {| budgetDisplay := budgetDisplay e;
     levelElements := l;
     investmentCards := c;
     errorMessage := errorMessage e;
     loadingIndicator := loadingIndicator e;
     resultsContainer := resultsContainer e;
     tiles := tiles e |}.

Definition with_errorMessage (v : option (string * string)) (e : Elements)
    : Elements :=
  {| budgetDisplay := budgetDisplay e;
     levelElements := levelElements e;
     investmentCards := investmentCards e;
     errorMessage := v;
     loadingIndicator := loadingIndicator e;
     resultsContainer := resultsContainer e;
     tiles := tiles e |}.

Definition with_loadingIndicator (v : option string) (e : Elements)
    : Elements :=
  {| budgetDisplay := budgetDisplay e;
     levelElements := levelElements e;
     investmentCards := investmentCards e;
     errorMessage := errorMessage e;
     loadingIndicator := v;
     resultsContainer := resultsContainer e;
     tiles := tiles e |}.

Definition with_resultsContainer (v : option string) (e : Elements)
    : Elements :=
  {| budgetDisplay := budgetDisplay e;
     levelElements := levelElements e;
     investmentCards := investmentCards e;
     errorMessage := errorMessage e;
     loadingIndicator := loadingIndicator e;
     resultsContainer := v;
     tiles := tiles e |}.

Definition with_tiles (v : ResultTiles) (e : Elements) : Elements :=
  {| budgetDisplay := budgetDisplay e;
     levelElements := levelElements e;
     investmentCards := investmentCards e;
     errorMessage := errorMessage e;
     loadingIndicator := loadingIndicator e;
     resultsContainer := resultsContainer e;
     tiles := v |}.

(** *** Display helpers *)

Definition showLoading (show : bool) (e : Elements) : Elements :=
  with_loadingIndicator
    (write (if show then "flex" else "none") (loadingIndicator e)) e.

Definition showError (message : string) (e : Elements) : Elements :=
  with_errorMessage (write (message, "block") (errorMessage e)) e.

Definition hideError (e : Elements) : Elements :=
  with_errorMessage
    (match errorMessage e with
     | Some (message, _) => Some (message, "none")
     | None => None
     end) e.

Definition updateBudgetDisplay (s : SimulationState) (e : Elements)
    : Elements :=
  with_budgetDisplay
    (write ([Lit "$"; Locale (Finite (inject_Z (budget s))); Lit "k"],
            if budget s <? 1000 then "#ef4444" else "#10b981")
           (budgetDisplay e)) e.

(** The button branch of [updateInvestmentLevels]. *)
Definition updateButton (s : SimulationState) (level : Z)
    (button : InvestButton) : InvestButton :=
  let cost := data_cost button in
  if 3 <=? level then
    {| data_cost := data_cost button;
       disabled := true;
       textContent := "Nivel Máximo";
       maxed := true;
       insufficient := insufficient button |}
  else if budget s <? cost then
    {| data_cost := data_cost button;
       disabled := true;
       textContent := "Presupuesto Insuficiente";
       maxed := maxed button;
       insufficient := true |}
  else
    {| data_cost := data_cost button;
       disabled := false;
       textContent := "Invertir";
       maxed := false;
       insufficient := false |}.

Definition updateCard (s : SimulationState) (level : Z)
    (card : InvestmentCard) : InvestmentCard :=
  {| progress_steps :=
       imap (fun index _ => Z.of_nat index <? level) (progress_steps card);
     btn_invest := updateButton s level (btn_invest card) |}.

Definition updateInvestmentLevels (s : SimulationState) (e : Elements)
    : Elements :=
  with_levels
    (for_each (fun _ level levelElement => write level levelElement)
       (investments s) (levelElements e))
    (for_each (fun _ level card => updateCard s level <$> card)
       (investments s) (investmentCards e))
    e.

Definition updateBudgetWarning (s : SimulationState) (t : ResultTiles)
    : ResultTiles :=
  {| statTiles := statTiles t;
     investmentsSection := investmentsSection t;
     currentRate := currentRate t;
     studentsAtRisk := studentsAtRisk t;
     studentsContinuing := studentsContinuing t;
     municipalityName := municipalityName t;
     population := population t;
     trendIndicator := trendIndicator t;
     budgetWarning :=
       write (if budget s <? 1000 then "flex" else "none") (budgetWarning t) |}.

Definition TypeError_null (property : string) : string :=
  "Cannot read properties of null (reading '" +:+ property +:+ "')".

(** [displayResults()]: the tiles are written from the current prediction,
    then the trend indicator from the difference with the baseline.  Reading
    a property of a [null] prediction throws where the source reads it. *)
Definition displayResults (s : SimulationState) (e : Elements)
    : Elements * Completion :=
  match currentPrediction s with
  | None => (e, Threw (TypeError_null "input_parameters"))
  | Some current =>
      let totalPopulation :=
        round (input_parameters current !! "POBLACIÓN_5_16") in
      let atRisk := predicted_students_impacted current in
      let continuing := sub totalPopulation atRisk in
      let t := tiles e in
      let written :=
        {| statTiles := write "grid" (statTiles t);
           investmentsSection := write "block" (investmentsSection t);
           currentRate :=
             write [Fixed 2 (predicted_dropout_rate current); Lit "%"]
                   (currentRate t);
           studentsAtRisk := write [Locale (Finite atRisk)] (studentsAtRisk t);
           studentsContinuing :=
             write [Locale continuing] (studentsContinuing t);
           municipalityName :=
             write (municipality_name current) (municipalityName t);
           population := write [Locale totalPopulation] (population t);
           trendIndicator := trendIndicator t;
           budgetWarning := budgetWarning t |} in
      match baseline s with
      | None => (with_tiles written e, Threw (TypeError_null "predicted_dropout_rate"))
      | Some base =>
          let improvement :=
            (predicted_dropout_rate base - predicted_dropout_rate current)%Q in
          let trend :=
            if ltb 0 improvement then
              ([Lit "↓ "; Fixed 2 improvement; Lit "% vs Base"],
               "tile-trend positive")
            else if ltb improvement 0 then
              ([Lit "↑ "; Fixed 2 (Qabs improvement); Lit "% vs Base"],
               "tile-trend negative")
            else ([Lit "Sin cambios"], "tile-trend") in
          let withTrend :=
            {| statTiles := statTiles written;
               investmentsSection := investmentsSection written;
               currentRate := currentRate written;
               studentsAtRisk := studentsAtRisk written;
               studentsContinuing := studentsContinuing written;
               municipalityName := municipalityName written;
               population := population written;
               trendIndicator := write trend (trendIndicator written);
               budgetWarning := budgetWarning written |} in
          (with_tiles (updateBudgetWarning s withTrend) e, Normal)
      end
  end.

(** [resetInvestments()] *)
Definition resetInvestments (s : SimulationState) (e : Elements)
    : SimulationState * Elements :=
  let s' := with_investments (Build_PerKind 0 0 0 0) s in
  (s', updateBudgetDisplay s' (updateInvestmentLevels s' e)).

(** *** The page as a transition system *)

(** A call the page is waiting for. *)
Inductive Pending : Type :=
| AwaitUpdate    (* updatePrediction waits for api.predictDropout *)
| AwaitLoad.     (* handleLoadData waits for api.predictDropout *)

Record World : Type := {
  state : SimulationState;
  page : Elements;
  pending : list Pending;
  timers : nat;              (* scheduled setTimeout(hideError, 3000) *)
  sent : list Request        (* every request issued so far, oldest first *)
}.

Definition initial (index_html : Elements) : World :=
  {| state := initial_state;
     page := index_html;
     pending := [];
     timers := 0;
     sent := [] |}.

Definition update (s : SimulationState) (e : Elements) (w : World) : World :=
  {| state := s;
     page := e;
     pending := pending w;
     timers := timers w;
     sent := sent w |}.

Definition send (request : Request) (waiter : Pending) (w : World) : World :=
  {| state := state w;
     page := page w;
     pending := pending w ++ [waiter];
     timers := timers w;
     sent := sent w ++ [request] |}.

Definition setTimeout_hideError (w : World) : World :=
  {| state := state w;
     page := page w;
     pending := pending w;
     timers := S (timers w);
     sent := sent w |}.

(** One body of the loop of [updatePrediction]. *)
Definition adjust (s : SimulationState) (base : Prediction)
    (adjustments : gmap string Number) (type : InvestmentKind)
    : gmap string Number :=
  let level := get type (investments s) in
  if 0 <? level then
    let config := get type INVESTMENT_CONFIG in
    let baseValue := input_parameters base !! parameter config in
    <[parameter config := add baseValue (improvement config * inject_Z level)]>
      adjustments
  else adjustments.

(** The [adjustments] object of [updatePrediction].  [state.baseline] is
    dereferenced only inside [if (level > 0)]. *)
Definition adjustments_of (s : SimulationState)
    : Outcome (gmap string Number) :=
  match baseline s with
  | Some base => Resolved (foldl (adjust s base) ∅ entries)
  | None =>
      if existsb (fun type => 0 <? get type (investments s)) entries
      then Rejected (TypeError_null "input_parameters")
      else Resolved ∅
  end.

(** [updatePrediction()] up to its [await]. *)
Definition updatePrediction_begin (w : World) : World :=
  let e := showLoading true (page w) in
  match adjustments_of (state w) with
  | Resolved adjustments =>
      send
        (predictDropout (selectedMunicipality (state w)) 2025
           (if (0 <? size adjustments)%nat then Some adjustments else None))
        AwaitUpdate
        (update (state w) e w)
  | Rejected message =>
      update (state w)
        (showLoading false
           (showError ("Error al actualizar predicción: " +:+ message) e))
        w
  end.

(** [updatePrediction()] after its [await]. *)
Definition updatePrediction_resume (response : Outcome Prediction)
    (w : World) : World :=
  match response with
  | Resolved prediction =>
      let s := with_currentPrediction (Some prediction) (state w) in
      match displayResults s (page w) with
      | (e, Normal) => update s (showLoading false e) w
      | (e, Threw message) =>
          update s
            (showLoading false
               (showError ("Error al actualizar predicción: " +:+ message) e))
            w
      end
  | Rejected message =>
      update (state w)
        (showLoading false
           (showError ("Error al actualizar predicción: " +:+ message)
              (page w)))
        w
  end.

(** [handleInvestment(event)], where [investmentType] and [cost] are what
    the handler reads from [event.target.dataset].  It ends at the [await]
    of [updatePrediction]; nothing follows that [await]. *)
Definition handleInvestment (investmentType : InvestmentKind) (cost : Z)
    (w : World) : World :=
  if budget (state w) <? cost then
    setTimeout_hideError
      (update (state w) (showError "Presupuesto insuficiente" (page w)) w)
  else
    let s := with_budget (budget (state w) - cost) (state w) in
    let s :=
      with_investments
        (set investmentType (get investmentType (investments s) + 1)
           (investments s)) s in
    let e := updateInvestmentLevels s (updateBudgetDisplay s (page w)) in
    updatePrediction_begin (update s e w).

(** [handleLoadData()] up to its [await]. *)
Definition handleLoadData_begin (w : World) : World :=
  if truthy (selectedMunicipality (state w)) then
    send
      (predictDropout (selectedMunicipality (state w)) 2025 None)
      AwaitLoad
      (update (state w) (hideError (showLoading true (page w))) w)
  else w.

(** [handleLoadData()] after its [await]. *)
Definition handleLoadData_resume (response : Outcome Prediction)
    (w : World) : World :=
  match response with
  | Resolved prediction =>
      let s :=
        with_currentPrediction (Some prediction)
          (with_baseline (Some prediction) (state w)) in
      let '(s, e) := resetInvestments s (page w) in
      match displayResults s e with
      | (e, Normal) =>
          update s
            (showLoading false
               (with_resultsContainer (write "block" (resultsContainer e)) e))
            w
      | (e, Threw message) =>
          update s
            (showLoading false
               (showError ("Error al cargar datos: " +:+ message) e))
            w
      end
  | Rejected message =>
      update (state w)
        (showLoading false
           (showError ("Error al cargar datos: " +:+ message) (page w)))
        w
  end.

(** [handleReset()] *)
Definition handleReset (w : World) : World :=
  let s := with_budget 10000 (state w) in
  let '(s, e) := resetInvestments s (page w) in
  let w := update s e w in
  if truthy (selectedMunicipality s) then handleLoadData_begin w else w.

(** [handleMunicipalityChange(event)] with [value = event.target.value]. *)
Definition handleMunicipalityChange (value : string) (w : World) : World :=
  update (with_selectedMunicipality (Some value) (state w)) (page w) w.

(** [handleDepartmentChange(event)] with the [value] of the selected
    option; the two [<select>] elements are not part of [Elements]. *)
Definition handleDepartmentChange (value : string) (w : World) : World :=
  if truthy (Some value)
  then update (with_selectedDepartment (Some value) (state w)) (page w) w
  else w.

(** What can happen to the page.  A click on an investment button reaches
    [handleInvestment] only if the page has that button and it is not
    disabled: the browser dispatches no click event on a disabled button.
    [Settle i] completes the [i]-th pending call with the given outcome,
    in any order.  The load button and the selects are not gated here, so
    the runs of this system include every run of the page. *)
Inductive Event : Type :=
| ClickInvest (type : InvestmentKind)
| ClickReset
| ClickLoad
| ChangeDepartment (value : string)
| ChangeMunicipality (value : string)
| Settle (i : nat) (response : Outcome Prediction)
| Timeout.

Definition settled (i : nat) (w : World) : World :=
  {| state := state w;
     page := page w;
     pending := delete i (pending w);
     timers := timers w;
     sent := sent w |}.

Definition step (w : World) (ev : Event) : World :=
  match ev with
  | ClickInvest type =>
      match get type (investmentCards (page w)) with
      | Some card =>
          if disabled (btn_invest card) then w
          else handleInvestment type (data_cost (btn_invest card)) w
      | None => w
      end
  | ClickReset => handleReset w
  | ClickLoad => handleLoadData_begin w
  | ChangeDepartment value => handleDepartmentChange value w
  | ChangeMunicipality value => handleMunicipalityChange value w
  | Settle i response =>
      match pending w !! i with
      | Some AwaitUpdate => updatePrediction_resume response (settled i w)
      | Some AwaitLoad => handleLoadData_resume response (settled i w)
      | None => w
      end
  | Timeout =>
      match timers w with
      | O => w
      | S n =>
          {| state := state w;
             page := hideError (page w);
             pending := pending w;
             timers := n;
             sent := sent w |}
      end
  end.

Definition run (events : list Event) (w : World) : World :=
  foldl step w events.

(** *** Properties of a world used as invariants *)

Definition level (type : InvestmentKind) (w : World) : Z :=
  get type (investments (state w)).



(** The button of a kind that reached level 3 is disabled. *)
Definition capped (w : World) : Prop :=
  forall type card,
    get type (investmentCards (page w)) = Some card ->
    3 <= level type w -> disabled (btn_invest card) = true.

Definition levels_in_range (w : World) : Prop :=
  forall type, 0 <= level type w <= 3.

(** *** Accounting and button state *)

(** The cost on the button of a kind, 0 on a page without that button. *)
Definition costOf (type : InvestmentKind) (e : Elements) : Z :=
  match get type (investmentCards e) with
  | Some card => data_cost (btn_invest card)
  | None => 0
  end.

(** What the levels of a world cost at the prices on its buttons. *)
Definition spent (w : World) : Z :=
  costOf infrastructure (page w) * level infrastructure w
  + costOf quality (page w) * level quality w
  + costOf coverage (page w) * level coverage w
  + costOf staffing (page w) * level staffing w.

(** Every investment button shows the state: it is disabled exactly when
    its kind is at level 3 or the budget is below its cost. *)
Definition synced (w : World) : Prop :=
  forall type card,
    get type (investmentCards (page w)) = Some card ->
    disabled (btn_invest card)
    = (3 <=? level type w) || (budget (state w) <? data_cost (btn_invest card)).

(** No button of the page has a negative cost. *)
Definition costs_nonnegative (e : Elements) : Prop :=
  forall type, 0 <= costOf type e.

(** The invariant behind the accounting. *)
Definition accounted (w : World) : Prop :=
  costs_nonnegative (page w)
  /\ levels_in_range w /\ capped w
  /\ budget (state w) + spent w <= 10000.

(** A page for examples: the four cards of the simulator with the costs of
    [INVESTMENT_CONFIG], three progress steps each, buttons enabled. *)
Definition example_card (type : InvestmentKind) : InvestmentCard :=
  {| progress_steps := [false; false; false];
     btn_invest :=
       {| data_cost := cost (get type INVESTMENT_CONFIG);
          disabled := false;
          textContent := "Invertir";
          maxed := false;
          insufficient := false |} |}.

Definition example_page : Elements :=
  {| budgetDisplay := Some ([Lit "$10,000k"], "#10b981");
     levelElements := Build_PerKind (Some 0) (Some 0) (Some 0) (Some 0);
     investmentCards :=
       Build_PerKind (Some (example_card infrastructure))
         (Some (example_card quality)) (Some (example_card coverage))
         (Some (example_card staffing));
     errorMessage := Some ("", "none");
     loadingIndicator := Some "none";
     resultsContainer := Some "none";
     tiles :=
       {| statTiles := Some "none";
          investmentsSection := Some "none";
          currentRate := Some [];
          studentsAtRisk := Some [];
          studentsContinuing := Some [];
          municipalityName := Some "";
          population := Some [];
          trendIndicator := Some ([], "tile-trend");
          budgetWarning := Some "none" |} |}.

(** A prediction for examples: the baseline of the scenario of the
    specification (rate 2.34, 1053 students, classroom density 30.0). *)
Definition example_prediction : Prediction :=
  {| municipality_name := "Turbaco";
     predicted_dropout_rate := 2.34;
     predicted_students_impacted := 1053;
     target_year := 2025;
     input_parameters :=
       <["classroom_density" := 30.0%Q]>
         (<["over_age_gap" := 4.0%Q]>
            (<["repitencia_lag_1" := 3.5%Q]>
               (<["primaria_to_media_ratio" := 0.8%Q]>
                  (<["POBLACIÓN_5_16" := 45000%Q]> ∅))));
     department_code := "13" |}.

(** A world with a loaded baseline, for examples. *)
Definition example_loaded (index_html : Elements) : World :=
  run [ChangeMunicipality "Turbaco"; ClickLoad;
       Settle 0 (Resolved example_prediction)]
    (initial index_html).

End App.

(* ===================================================================== *)
(** ** js/app.js: navigation                                              *)
(* ===================================================================== *)

Module Navigation.

Record AppState : Type := {
  currentView : string;
  views : list string;
  dashboardLoaded : bool
}.

Definition initial_AppState : AppState :=
  {| currentView := "landing";
     views := ["landing"; "dashboard"; "simulator"];
     dashboardLoaded := false |}.

(** The part of the page navigation works on. *)
Record NavPage : Type := {
  viewDisplay : gmap string string;   (* style.display of each .view-<v> *)
  navItems : list (string * bool);    (* data-view and class 'active' *)
  hash : string;                      (* window.location.hash, without # *)
  hamburger : option bool;            (* class 'active' *)
  mobileMenu : option bool            (* class 'active' *)
}.

(** The page: navigation, and the dashboard with its pending calls. *)
Record Browser : Type := {
  appState : AppState;
  navigation : NavPage;
  analytics : Dashboard.World
}.

Definition initial (index_html : NavPage) (dashboard_html : Dashboard.Page)
    (lang : Translations.Lang) : Browser :=
  {| appState := initial_AppState;
     navigation := index_html;
     analytics := Dashboard.initial dashboard_html lang |}.

(** [closeMobileMenu()] *)
Definition closeMobileMenu (n : NavPage) : NavPage :=
  match hamburger n, mobileMenu n with
  | Some _, Some _ =>
      {| viewDisplay := viewDisplay n;
         navItems := navItems n;
         hash := hash n;
         hamburger := Some false;
         mobileMenu := Some false |}
  | _, _ => n
  end.

(** The DOM part of [switchView]: hide all views, show the target, mark
    the navigation items, set the hash. *)
Definition showView (allViews : list string) (viewName : string)
    (n : NavPage) : NavPage :=
  {| viewDisplay :=
       alter (fun _ => "block") viewName
         (foldl (fun shown v => alter (fun _ => "none") v shown)
            (viewDisplay n) allViews);
     navItems :=
       (fun item => (item.1, String.eqb item.1 viewName)) <$> navItems n;
     hash := viewName;
     hamburger := hamburger n;
     mobileMenu := mobileMenu n |}.

Definition with_dashboardLoaded (v : bool) (a : AppState) : AppState :=
  {| currentView := currentView a;
     views := views a;
     dashboardLoaded := v |}.

Definition with_currentView (v : string) (a : AppState) : AppState :=
  {| currentView := v;
     views := views a;
     dashboardLoaded := dashboardLoaded a |}.

(** [switchView(viewName)].  When the dashboard is entered and
    [AppState.dashboardLoaded] is not set, [dashboard.init()] is called:
    if it returns at once (the dashboard is loaded) its [then] callback
    sets the flag right after this call; otherwise the callback waits for
    the pending [init]. *)
Definition switchView (viewName : string) (b : Browser) : Browser :=
  if negb (bool_decide (viewName ∈ views (appState b))) then b
  else
    let n := showView (views (appState b)) viewName (navigation b) in
    let lazyInit :=
      String.eqb viewName "dashboard" && negb (dashboardLoaded (appState b)) in
    let initReturned := Dashboard.loaded (Dashboard.dashboard (analytics b)) in
    {| appState :=
         with_currentView viewName
           (if lazyInit && initReturned
            then with_dashboardLoaded true (appState b)
            else appState b);
       navigation := closeMobileMenu n;
       analytics :=
         if lazyInit then Dashboard.init_begin (analytics b) else analytics b |}.

(** The [then] callback of [dashboard.init()] in [switchView]. *)
Definition init_then (b : Browser) : Browser :=
  {| appState := with_dashboardLoaded true (appState b);
     navigation := navigation b;
     analytics := analytics b |}.

Definition with_analytics (v : Dashboard.World) (b : Browser) : Browser :=
  {| appState := appState b;
     navigation := navigation b;
     analytics := v |}.

(** The [hashchange] listener, after the browser changed the fragment. *)
Definition onHashChange (fragment : string) (b : Browser) : Browser :=
  let b :=
    {| appState := appState b;
       navigation :=
         {| viewDisplay := viewDisplay (navigation b);
            navItems := navItems (navigation b);
            hash := fragment;
            hamburger := hamburger (navigation b);
            mobileMenu := mobileMenu (navigation b) |};
       analytics := analytics b |} in
  if truthy (Some fragment) && bool_decide (fragment ∈ views (appState b))
  then switchView fragment b
  else b.

(** An item of the rendered department list can be clicked. *)
Definition clickable (deptCode : string) (p : Dashboard.Page) : bool :=
  match Dashboard.departmentList p, Dashboard.viewDashboard p with
  | Some (Some rendered), Some (_, pointerEvents) =>
      negb (String.eqb pointerEvents "none")
      && (String.eqb deptCode "all"
          || existsb (fun item => String.eqb (Dashboard.item_code item) deptCode)
               (Dashboard.items rendered))
  | Some (Some rendered), None =>
      String.eqb deptCode "all"
      || existsb (fun item => String.eqb (Dashboard.item_code item) deptCode)
           (Dashboard.items rendered)
  | _, _ => false
  end.

(** What can happen to the page.  [NavClick] is a click on a navigation
    item or on the call-to-action button with that target; [HashChange] is
    the event the browser fires after the fragment changed, by the user or
    by the assignment in [switchView]; [DeptClick] is a click on the item
    of the department list with that [data-dept-code]; [Settle i]
    completes the [i]-th pending call of the dashboard. *)
Inductive Event : Type :=
| NavClick (view : string)
| HashChange (fragment : string)
| DeptClick (deptCode : string)
| Settle (i : nat) (response : Dashboard.Response).

Definition step (b : Browser) (ev : Event) : Browser :=
  match ev with
  | NavClick view => if truthy (Some view) then switchView view b else b
  | HashChange fragment => onHashChange fragment b
  | DeptClick deptCode =>
      if clickable deptCode (Dashboard.page (analytics b)) then
        with_analytics
          (Dashboard.filterByDepartment_begin
             (if String.eqb deptCode "all" then None else Some deptCode)
             (analytics b)) b
      else b
  | Settle i response =>
      let w := analytics b in
      match Dashboard.pending w !! i, response with
      | Some Dashboard.AwaitInit, Dashboard.InitResponses n d h =>
          init_then
            (with_analytics
               (Dashboard.init_resume n d h (Dashboard.settled i w)) b)
      | Some (Dashboard.AwaitFilter departmentCode), Dashboard.HistoryResponse h =>
          with_analytics
            (Dashboard.filterByDepartment_resume departmentCode h
               (Dashboard.settled i w)) b
      | _, _ => b
      end
  end.

Definition run (events : list Event) (b : Browser) : Browser :=
  foldl step b events.

(** The number of three-way analytics fetches issued so far: each one
    starts with the national request. *)
Definition initialFetches (b : Browser) : nat :=
  length (List.filter
            (fun r => match r with Api.GetNational => true | _ => false end)
            (Dashboard.sent (analytics b))).

(** The end of [init()] of [app.js]: the view of the fragment the page was
    opened with, or the landing view. *)
Definition initialRoute (b : Browser) : Browser :=
  let fragment := hash (navigation b) in
  if truthy (Some fragment) && bool_decide (fragment ∈ views (appState b))
  then switchView fragment b
  else switchView "landing" b.

(** The view elements of the page opened with [index_html], as a run
    keeps them. *)
Definition routed (index_html : NavPage) (b : Browser) : Prop :=
  views (appState b) = ["landing"; "dashboard"; "simulator"]
  /\ currentView (appState b) ∈ views (appState b)
  /\ forall v,
       v ∈ views (appState b) ->
       viewDisplay (navigation b) !! v
       = (fun _ => if String.eqb v (currentView (appState b))
                   then "block" else "none")
         <$> viewDisplay index_html !! v.


(** A pending call is a [filterByDepartment]. *)
Definition isFilter (waiter : Dashboard.Pending) : bool :=
  match waiter with
  | Dashboard.AwaitFilter _ => true
  | Dashboard.AwaitInit => false
  end.

(** The number of history requests of [filterByDepartment] in flight. *)
Definition filtersPending (b : Browser) : nat :=
  length (List.filter isFilter (Dashboard.pending (analytics b))).

(** The page has the dashboard view, and while a filter is in flight the
    view takes no clicks and no second filter is in flight. *)
Definition oneFilterAtATime (b : Browser) : Prop :=
  exists opacity pointerEvents,
    Dashboard.viewDashboard (Dashboard.page (analytics b))
    = Some (opacity, pointerEvents)
    /\ (filtersPending b = 0%nat
        \/ (filtersPending b = 1%nat /\ pointerEvents = "none")).

(** The error banner of the dashboard is displayed. *)
Definition bannerShown (p : Dashboard.Page) : Prop :=
  exists message, Dashboard.dashboardError p = Some (message, "block").

Definition errorShown (b : Browser) : Prop :=
  bannerShown (Dashboard.page (analytics b)).

(** A page for examples: the three views, a navigation bar, the mobile
    menu open. *)
Definition example_navigation (fragment : string) : NavPage :=
  {| viewDisplay :=
       <["landing" := "block"]>
         (<["dashboard" := "none"]> (<["simulator" := "none"]> ∅));
     navItems := [("landing", true); ("dashboard", false); ("simulator", false)];
     hash := fragment;
     hamburger := Some true;
     mobileMenu := Some true |}.

End Navigation.

(* ===================================================================== *)
(** * Properties                                                          *)
(* ===================================================================== *)

Module ChartsProofs.
Import Translations Charts.

Lemma ltb_lt (x y : Q) : ltb x y = true <-> (x < y)%Q.
Proof.
  unfold ltb. rewrite negb_true_iff.
  split.
  - intros H. apply Qnot_le_lt. intros Hle.
    apply Qle_bool_iff in Hle. congruence.
  - intros H. destruct (Qle_bool y x) eqn:Hle; [|reflexivity].
    apply Qle_bool_iff in Hle. exfalso. exact (Qlt_not_le _ _ H Hle).
Qed.

Lemma ltb_ge (x y : Q) : ltb x y = false <-> (y <= x)%Q.
Proof.
  unfold ltb. rewrite negb_false_iff. apply Qle_bool_iff.
Qed.

(** C10. For every rate and both languages, the colour is red exactly
    when the label is the high one, amber exactly when it is the medium
    one, emerald exactly when it is the low one. *)
Theorem C10_risk_color_agrees_with_risk_label :
  forall (dropoutRate : Q) (lang : Lang),
    (getRiskColor dropoutRate = "#ef4444"
     <-> getRiskLabel dropoutRate lang = high (labels lang))
    /\ (getRiskColor dropoutRate = "#f59e0b"
        <-> getRiskLabel dropoutRate lang = medium (labels lang))
    /\ (getRiskColor dropoutRate = "#10b981"
        <-> getRiskLabel dropoutRate lang = low (labels lang)).
Proof.
  intros dropoutRate lang. unfold getRiskColor, getRiskLabel.
  destruct (ltb dropoutRate 3); [|destruct (ltb dropoutRate 6)];
    destruct lang; simpl; repeat split; intros H;
    first [reflexivity | discriminate H].
Qed.

End ChartsProofs.

Module DashboardProofs.
Import Api Translations Charts Dashboard ChartsProofs.

(** *** The high-risk KPI *)

Lemma highRiskCount_cons d depts :
  highRiskCount (d :: depts)
  = ((if ltb 6 (dropout_rate d) then 1 else 0) + highRiskCount depts)%nat.
Proof. unfold highRiskCount. simpl. destruct (ltb 6 (dropout_rate d)); reflexivity. Qed.

Lemma highRiskCount_perm depts depts' :
  depts ≡ₚ depts' -> highRiskCount depts = highRiskCount depts'.
Proof.
  induction 1 as [|x l l' _ IH|x y l|l l' l'' _ IH1 _ IH2].
  - reflexivity.
  - rewrite !highRiskCount_cons, IH. reflexivity.
  - rewrite !highRiskCount_cons. lia.
  - congruence.
Qed.

Lemma highRiskCount_none depts :
  Forall (fun d => (dropout_rate d < 6)%Q) depts -> highRiskCount depts = 0%nat.
Proof.
  induction 1 as [|d depts Hd _ IH]; [reflexivity|].
  rewrite highRiskCount_cons, IH.
  assert (ltb 6 (dropout_rate d) = false) as ->; [|reflexivity].
  apply ltb_ge. apply Qlt_le_weak. exact Hd.
Qed.

(** C7. The text [renderKPIs] puts in [#kpi-risk] is the number of
    departments of the fetched list whose rate is strictly above 6 (the
    count adds one for a department with [6 < dropout_rate] and nothing for
    one with [dropout_rate <= 6]); the label of a rate is the low one below
    3, the medium one from 3 and below 6, the high one from 6, and that is
    the label of each item of the rendered list; and a list made of one
    department at 8.9, one at 7.2 and others all below 6, in any order,
    gives the count 2. *)
Theorem C7_high_risk_count_and_risk_labels :
  forall (lang : Lang) (d : Data) (p : Page) (dept other : DepartmentStat)
         (rest depts : list DepartmentStat) (dropoutRate : Q)
         (selected : option string),
    kpi_risk (renderKPIs lang d p)
    = write [Str (inject_Z (Z.of_nat
               (highRiskCount (departments (department_analytics d)))))]
            (kpi_risk p)
    /\ highRiskCount [] = 0%nat
    /\ ((6 < dropout_rate dept)%Q ->
        highRiskCount (dept :: rest) = S (highRiskCount rest))
    /\ ((dropout_rate dept <= 6)%Q ->
        highRiskCount (dept :: rest) = highRiskCount rest)
    /\ ((dropoutRate < 3)%Q -> getRiskLabel dropoutRate lang = low (labels lang))
    /\ ((3 <= dropoutRate)%Q -> (dropoutRate < 6)%Q ->
        getRiskLabel dropoutRate lang = medium (labels lang))
    /\ ((6 <= dropoutRate)%Q -> getRiskLabel dropoutRate lang = high (labels lang))
    /\ item_label (renderItem lang selected dept)
       = getRiskLabel (dropout_rate dept) lang
    /\ (depts ≡ₚ dept :: other :: rest ->
        (dropout_rate dept == 8.9)%Q ->
        (dropout_rate other == 7.2)%Q ->
        Forall (fun x => (dropout_rate x < 6)%Q) rest ->
        highRiskCount depts = 2%nat).
Proof.
  intros lang d p dept other rest depts dropoutRate selected.
  split; [reflexivity|]. split; [reflexivity|].
  split; [|split].
  - intros H. rewrite highRiskCount_cons.
    apply ltb_lt in H. rewrite H. reflexivity.
  - intros H. rewrite highRiskCount_cons.
    apply ltb_ge in H. rewrite H. reflexivity.
  - unfold getRiskLabel. split; [|split; [|split; [|split]]].
    + intros H. apply ltb_lt in H. rewrite H. reflexivity.
    + intros H3 H6. apply ltb_ge in H3. apply ltb_lt in H6.
      rewrite H3, H6. reflexivity.
    + intros H6.
      assert (ltb dropoutRate 3 = false) as ->.
      { apply ltb_ge. apply Qle_trans with 6%Q; [discriminate | exact H6]. }
      apply ltb_ge in H6. rewrite H6. reflexivity.
    + reflexivity.
    + intros Hperm Hdept Hother Hrest.
      rewrite (highRiskCount_perm _ _ Hperm), !highRiskCount_cons.
      rewrite (highRiskCount_none rest Hrest).
      assert (ltb 6 (dropout_rate dept) = true) as ->.
      { apply ltb_lt. rewrite Hdept. reflexivity. }
      assert (ltb 6 (dropout_rate other) = true) as ->.
      { apply ltb_lt. rewrite Hother. reflexivity. }
      reflexivity.
Qed.

Lemma insert_two_perm {A : Type} (l : list A) (n : nat) (a b : A) :
  take n l ++ [a] ++ drop n l ++ [b] ≡ₚ a :: b :: l.
Proof.
  rewrite <- (take_drop n l) at 3. simpl.
  rewrite <- Permutation_middle. constructor.
  rewrite app_assoc, <- Permutation_cons_append. reflexivity.
Qed.

Lemma example_departments_perm :
  departments example_departments
  ≡ₚ example_department "27" 8.9 :: example_department "94" 7.2
     :: example_others.
Proof. apply insert_two_perm. Qed.

Lemma example_others_below_6 :
  Forall (fun x => (dropout_rate x < 6)%Q) example_others.
Proof.
  unfold example_others. apply Forall_fmap, Forall_forall.
  intros i Hi%elem_of_seq. simpl.
  assert (Z.of_nat i < 30)%Z as Hlt by lia.
  unfold Qlt, Qplus, Qdiv, Qmult, Qinv, inject_Z. simpl. lia.
Qed.

Lemma C7_high_risk_witness :
  highRiskCount (departments example_departments) = 2%nat
  /\ getRiskLabel 8.9 en = "High"
  /\ getRiskLabel 4.5 en = "Medium"
  /\ getRiskLabel 2.9 en = "Low".
Proof.
  pose proof (C7_high_risk_count_and_risk_labels en
                (data_of example_ready) example_page
                (example_department "27" 8.9) (example_department "94" 7.2)
                example_others (departments example_departments) 8.9 None)
    as (_ & _ & _ & _ & _ & _ & Hhigh & _ & Hscenario).
  pose proof (C7_high_risk_count_and_risk_labels en
                (data_of example_ready) example_page
                (example_department "27" 8.9) (example_department "94" 7.2)
                example_others (departments example_departments) 4.5 None)
    as (_ & _ & _ & _ & _ & Hmedium & _).
  pose proof (C7_high_risk_count_and_risk_labels en
                (data_of example_ready) example_page
                (example_department "27" 8.9) (example_department "94" 7.2)
                example_others (departments example_departments) 2.9 None)
    as (_ & _ & _ & _ & Hlow & _).
  split; [|split; [|split]].
  - apply Hscenario.
    + exact example_departments_perm.
    + reflexivity.
    + reflexivity.
    + exact example_others_below_6.
  - apply Hhigh. vm_compute. discriminate.
  - apply Hmedium; vm_compute; [discriminate | reflexivity].
  - apply Hlow. reflexivity.
Defined.

(** *** Initialisation *)

Lemma loadData_rejects_together {n d h} :
  rejected n \/ rejected d \/ rejected h ->
  loadData_resume n d h = Rejected "Failed to load analytics data from API".
Proof.
  destruct n, d, h; simpl; intros [H|[H|H]];
    first [reflexivity | contradiction].
Qed.

(** C5. [init] on a dashboard that is not loaded sends the national, the
    departments and the (national) history request together, before any of
    them is awaited, and waits for the three as one pending call.  When one
    of the three is rejected, whichever the others are, the continuation
    renders nothing: the [Dashboard] object (data, charts, [loaded] still
    false) is as it was, the KPI elements, the risk card, the department
    list and the titles are as they were, and the error element shows the
    message. *)
Theorem C5_init_fails_as_a_whole :
  forall (w w' : World) (n : Outcome NationalStats)
         (d : Outcome DepartmentAnalytics) (h : Outcome HistoricalTrends),
    loaded (dashboard w) = false ->
    rejected n \/ rejected d \/ rejected h ->
    (sent (init_begin w)
     = sent w ++ [GetNational; GetDepartments; GetHistory None]
     /\ pending (init_begin w) = pending w ++ [AwaitInit]
     /\ dashboard (init_begin w) = dashboard w
     /\ page (init_begin w) = showLoading true (page w))
    /\ (dashboard (init_resume n d h w') = dashboard w'
        /\ page (init_resume n d h w')
           = showError
               "Error loading analytics data: Failed to load analytics data from API"
               (page w')
        /\ sent (init_resume n d h w') = sent w')
    /\ (let after := init n d h w in
        dashboard after = dashboard w
        /\ loaded (dashboard after) = false
        /\ kpi_values (page after) = kpi_values (page w)
        /\ kpi_risk_card (page after) = kpi_risk_card (page w)
        /\ departmentList (page after) = departmentList (page w)
        /\ (headerTitle (page after), trendTitle (page after),
            funnelTitle (page after))
           = (headerTitle (page w), trendTitle (page w), funnelTitle (page w))
        /\ dashboardError (page after)
           = write
               ("Error loading analytics data: Failed to load analytics data from API",
                "block")
               (dashboardError (page w))).
Proof.
  intros w w' n d h Hloaded Hfail.
  pose proof (loadData_rejects_together Hfail) as Hload.
  split; [|split].
  - unfold init_begin. rewrite Hloaded. repeat split.
  - unfold init_resume. rewrite Hload. repeat split.
  - unfold init, init_begin. rewrite Hloaded. simpl.
    unfold init_resume. rewrite Hload. simpl.
    repeat split. exact Hloaded.
Qed.

Lemma C5_init_witness :
  let after :=
    init (Resolved example_national) (Rejected "Failed to fetch department analytics")
      (Resolved (example_history None 0)) (initial example_page en) in
  dashboard after = initial_state
  /\ kpi_values (page after) = kpi_values example_page
  /\ departmentList (page after) = Some None.
Proof.
  destruct (C5_init_fails_as_a_whole (initial example_page en)
              (initial example_page en)
              (Resolved example_national)
              (Rejected "Failed to fetch department analytics")
              (Resolved (example_history None 0)) eq_refl
              (or_intror (or_introl I)))
    as (_ & _ & Hstate & _ & Hkpis & _ & Hlist & _).
  split; [exact Hstate|]. split; [exact Hkpis | exact Hlist].
Defined.

(** *** Filtering by department *)

(** What a failed filter leaves as it was, and what it does not. *)
Lemma filterByDepartment_failure w departmentCode message :
  let after := filterByDepartment departmentCode (Rejected message) w in
  selectedDepartment (dashboard after) = departmentCode
  /\ data (dashboard after) = data (dashboard w)
  /\ charts (dashboard after) = charts (dashboard w)
  /\ kpi_values (page after) = kpi_values (page w)
  /\ kpi_risk_card (page after) = kpi_risk_card (page w)
  /\ departmentList (page after) = departmentList (page w)
  /\ dashboardError (page after)
     = write ("Error loading department data", "block") (dashboardError (page w)).
Proof. repeat split. Qed.

(** C2, on the code.  From the ready dashboard of the examples, with the
    national scope selected, a filter on department 27 whose history fetch
    fails leaves the stored history, the KPI elements and the rendered list
    (which still marks 'all' as selected) as they were and shows the error,
    but [Dashboard.selectedDepartment] is now 27: the assignment made
    before the [await] is not undone by the [catch]. *)
Theorem C2_failed_filter_keeps_the_requested_selection :
  let before := example_ready in
  let after :=
    filterByDepartment (Some "27") (Rejected "Failed to fetch historical trends")
      before in
  selectedDepartment (dashboard before) = None
  /\ selectedDepartment (dashboard after) = Some "27"
  /\ data (dashboard after) = data (dashboard before)
  /\ kpi_values (page after) = kpi_values (page before)
  /\ departmentList (page after) = departmentList (page before)
  /\ (all_selected <$> mjoin (departmentList (page after))) = Some true
  /\ dashboardError (page after)
     = Some ("Error loading department data", "block").
Proof. repeat split. Qed.

(** *** The round trip *)

(** The values [renderKPIs] writes depend on the national statistics, on
    the department list and on which elements the page has, and on nothing
    else of the page. *)
Lemma renderKPIs_values lang d d' p p' :
  national d = national d' ->
  department_analytics d = department_analytics d' ->
  kpi_elements p = kpi_elements p' ->
  (kpi_dropout p = None -> kpi_dropout_change p = kpi_dropout_change p') ->
  kpi_values (renderKPIs lang d p) = kpi_values (renderKPIs lang d' p').
Proof.
  intros Hn Hd. unfold kpi_elements, kpi_values, renderKPIs. simpl.
  rewrite Hn, Hd.
  destruct (kpi_dropout p), (kpi_dropout p'), (kpi_dropout_change p),
    (kpi_dropout_change p'), (kpi_students p), (kpi_students p'),
    (kpi_funnel p), (kpi_funnel p'), (kpi_risk p), (kpi_risk p');
    simpl; intros [=] Hchange; try reflexivity;
    rewrite (Hchange eq_refl); reflexivity.
Qed.

(** The department view writes the change element only together with the
    rate element, as [renderKPIs] does. *)
Lemma updateKPIsForDepartment_elements lang d departmentCode trends p :
  truthy departmentCode = true ->
  kpi_elements (updateKPIsForDepartment lang d departmentCode trends p)
  = kpi_elements p
  /\ (kpi_dropout p = None ->
      kpi_dropout_change (updateKPIsForDepartment lang d departmentCode trends p)
      = kpi_dropout_change p).
Proof.
  intros Hcode. unfold updateKPIsForDepartment. rewrite Hcode. simpl.
  unfold kpi_elements. simpl.
  destruct (last (data_points trends)),
    (if (1 <? length (data_points trends))%nat
     then data_points trends !! (length (data_points trends) - 2)%nat
     else None),
    (kpi_dropout p), (kpi_dropout_change p), (kpi_students p),
    (kpi_funnel p), (kpi_risk p), (kpi_risk_card p);
    split; first [reflexivity | discriminate].
Qed.

(** [renderKPIs] is idempotent on the values. *)
Lemma renderKPIs_twice lang d d' p :
  national d = national d' ->
  department_analytics d = department_analytics d' ->
  kpi_values (renderKPIs lang d (renderKPIs lang d' p))
  = kpi_values (renderKPIs lang d' p).
Proof.
  intros Hn Hd. unfold kpi_values, renderKPIs. simpl. rewrite Hn, Hd.
  destruct (kpi_dropout p), (kpi_dropout_change p), (kpi_students p),
    (kpi_funnel p), (kpi_risk p); reflexivity.
Qed.

(** The page after a filter that got its history. *)
Lemma filterByDepartment_success w d departmentCode trends :
  data (dashboard w) = Some d ->
  let after := filterByDepartment departmentCode (Resolved trends) w in
  data (dashboard after) = Some (with_history trends d)
  /\ currentLanguage after = currentLanguage w
  /\ kpi_values (page after)
     = kpi_values
         (updateKPIsForDepartment (currentLanguage w) (with_history trends d)
            departmentCode trends
            (updateDashboardHeader (currentLanguage w) (with_history trends d)
               departmentCode (setInteraction "0.6" "none" (page w)))).
Proof.
  intros Hdata. unfold filterByDepartment, filterByDepartment_resume. simpl.
  rewrite Hdata. simpl. split; [|split]; [| reflexivity |].
  - unfold createFunnelChart, createTrendChart.
    destruct (trendChart _), (funnelChart _); reflexivity.
  - unfold renderDepartmentList. simpl.
    destruct (departmentList _); reflexivity.
Qed.

Lemma round_trip_renders_national_kpis :
  forall (w : World) (d : Data) (departmentCode : option string)
         (trends national_trends : HistoricalTrends),
    data (dashboard w) = Some d ->
    kpi_values
      (page (filterByDepartment None (Resolved national_trends)
               (filterByDepartment departmentCode (Resolved trends) w)))
    = kpi_values (renderKPIs (currentLanguage w) d (page w)).
Proof.
  intros w d departmentCode trends national_trends Hdata.
  destruct (filterByDepartment_success w d departmentCode trends Hdata)
    as (Hdata1 & Hlang1 & Hkpis1).
  destruct (filterByDepartment_success _ _ None national_trends Hdata1)
    as (_ & _ & Hkpis2).
  rewrite Hkpis2, Hlang1. clear Hkpis2.
  unfold updateKPIsForDepartment at 1. simpl.
  set (p1 := page (filterByDepartment departmentCode (Resolved trends) w)) in *.
  set (lang := currentLanguage w) in *.
  transitivity
    (kpi_values (renderKPIs lang (with_history national_trends (with_history trends d)) p1)).
  { reflexivity. }
  assert (kpi_elements p1 = kpi_elements (page w)
          /\ (kpi_dropout p1 = None ->
              kpi_dropout_change p1 = kpi_dropout_change (page w))
          \/ kpi_values p1 = kpi_values (renderKPIs lang (with_history trends d) (page w)))
    as Hp1.
  { assert (forall p q, kpi_values p = kpi_values q ->
                        kpi_elements p = kpi_elements q
                        /\ kpi_dropout p = kpi_dropout q
                        /\ kpi_dropout_change p = kpi_dropout_change q) as Hvalues.
    { intros p q. unfold kpi_values, kpi_elements. intros [=]. repeat split; congruence. }
    destruct (truthy departmentCode) eqn:Hcode.
    - left.
      destruct (updateKPIsForDepartment_elements lang (with_history trends d)
                  departmentCode trends
                  (updateDashboardHeader lang (with_history trends d)
                     departmentCode (setInteraction "0.6" "none" (page w))) Hcode)
        as [Helements Hchange].
      destruct (Hvalues _ _ Hkpis1) as (He & Hdrop & Hch).
      split.
      + rewrite He, Helements. reflexivity.
      + intros Hnone. rewrite Hch. rewrite Hdrop in Hnone.
        apply Hchange.
        revert Hnone. unfold updateKPIsForDepartment. rewrite Hcode. simpl.
        destruct (last (data_points trends)); [|auto].
        destruct (kpi_dropout (page w)); [discriminate | auto].
    - right. rewrite Hkpis1. unfold updateKPIsForDepartment. rewrite Hcode.
      reflexivity. }
  destruct Hp1 as [[Helements Hchange]|Hrendered].
  - apply renderKPIs_values; try reflexivity; assumption.
  - transitivity
      (kpi_values (renderKPIs lang (with_history national_trends (with_history trends d))
                     (renderKPIs lang (with_history trends d) (page w)))).
    + unfold kpi_values in Hrendered |- *. injection Hrendered as H1 H2 H3 H4 H5.
      unfold renderKPIs at 1 3. simpl. rewrite H1, H2, H3, H4, H5. reflexivity.
    + rewrite renderKPIs_twice by reflexivity.
      apply renderKPIs_values; reflexivity.
Qed.

(** The KPI values a fresh [init] leaves on a page. *)
Lemma init_kpi_values p lang n ds h :
  kpi_values
    (page (init (Resolved n) (Resolved ds) (Resolved h) (initial p lang)))
  = kpi_values
      (renderKPIs lang
         {| national := n; department_analytics := ds; history := h |} p).
Proof.
  unfold init, init_begin, init_resume. simpl.
  unfold renderDepartmentList. simpl.
  destruct (departmentList p); reflexivity.
Qed.

(** C8. On a dashboard with its data loaded, a filter on any department
    code followed by a filter on [null], both with their history fetched,
    leaves in the five KPI value elements what [renderKPIs] computes from
    the national statistics and the department list held since [init];
    these are the values a fresh [init] would put on the same page from a
    national fetch and a department fetch that return those statistics. *)
Theorem C8_filter_round_trip_restores_national_kpis :
  forall (w : World) (d : Data) (departmentCode : option string)
         (trends national_trends fresh_trends : HistoricalTrends),
    data (dashboard w) = Some d ->
    let after :=
      filterByDepartment None (Resolved national_trends)
        (filterByDepartment departmentCode (Resolved trends) w) in
    kpi_values (page after)
    = kpi_values (renderKPIs (currentLanguage w) d (page w))
    /\ kpi_values (page after)
       = kpi_values
           (page (init (Resolved (national d))
                    (Resolved (department_analytics d))
                    (Resolved fresh_trends)
                    (initial (page w) (currentLanguage w)))).
Proof.
  intros w d departmentCode trends national_trends fresh_trends Hdata after.
  pose proof (round_trip_renders_national_kpis w d departmentCode trends
                national_trends Hdata) as Hround.
  fold after in Hround. split; [exact Hround|].
  rewrite Hround, init_kpi_values.
  apply renderKPIs_values; reflexivity.
Qed.

Lemma C8_round_trip_witness :
  kpi_values
    (page (filterByDepartment None (Resolved (example_history None 0))
             (filterByDepartment (Some "27")
                (Resolved (example_history (Some "27") 3.8)) example_ready)))
  = kpi_values (page example_ready).
Proof.
  destruct (C8_filter_round_trip_restores_national_kpis example_ready
              (data_of example_ready) (Some "27")
              (example_history (Some "27") 3.8) (example_history None 0)
              (example_history None 0) eq_refl) as [Hround _].
  rewrite Hround. reflexivity.
Defined.

(** The label of the risk card is not one of the values: the department
    view writes 'DEPARTMENT CODE' in it and the way back, through
    [renderKPIs], does not write it again. *)
Remark round_trip_keeps_the_department_label :
  let after :=
    filterByDepartment None (Resolved (example_history None 0))
      (filterByDepartment (Some "27")
         (Resolved (example_history (Some "27") 3.8)) example_ready) in
  kpi_risk_card (page example_ready)
  = Some {| kpi_label := Some "HIGH-RISK DEPARTMENTS" |}
  /\ kpi_risk_card (page after) = Some {| kpi_label := Some "DEPARTMENT CODE" |}
  /\ kpi_risk (page after) = Some [Str 2].
Proof. repeat split. Qed.

End DashboardProofs.

Module NavigationProofs.
Import Api Navigation.

Lemma browser_run_invariant (P : Browser -> Prop) :
  (forall b ev, P b -> P (step b ev)) ->
  forall events b, P b -> P (run events b).
Proof.
  intros Hstep events. unfold run.
  induction events as [|ev events IH]; intros b Hb; simpl; auto.
Qed.

(** [init()] is a no-op once the dashboard is loaded. *)
Lemma init_begin_loaded w :
  Dashboard.loaded (Dashboard.dashboard w) = true -> Dashboard.init_begin w = w.
Proof. intros H. unfold Dashboard.init_begin. rewrite H. reflexivity. Qed.

Lemma switchView_loaded viewName b :
  dashboardLoaded (appState b) = true ->
  dashboardLoaded (appState (switchView viewName b)) = true
  /\ analytics (switchView viewName b) = analytics b.
Proof.
  intros Hloaded. unfold switchView.
  destruct (negb (bool_decide _)); [auto|]. simpl.
  rewrite Hloaded, andb_false_r. simpl. auto.
Qed.

Lemma count_national_app sent1 sent2 :
  length (List.filter
            (fun r => match r with GetNational => true | _ => false end)
            (sent1 ++ sent2))
  = (length (List.filter
               (fun r => match r with GetNational => true | _ => false end)
               sent1)
     + length (List.filter
                 (fun r => match r with GetNational => true | _ => false end)
                 sent2))%nat.
Proof. rewrite List.filter_app, length_app. reflexivity. Qed.

(** Once [AppState.dashboardLoaded] is set, it stays set and no event
    starts another three-way fetch. *)
Lemma step_after_loaded b ev :
  dashboardLoaded (appState b) = true ->
  dashboardLoaded (appState (step b ev)) = true
  /\ initialFetches (step b ev) = initialFetches b.
Proof.
  intros Hloaded. destruct ev as [view|fragment|deptCode|i response];
    unfold step.
  - destruct (truthy (Some view)); [|auto].
    destruct (switchView_loaded view b Hloaded) as [H1 H2].
    unfold initialFetches. rewrite H1, H2. auto.
  - unfold onHashChange.
    destruct (truthy (Some fragment) && bool_decide _); [|auto].
    match goal with |- context [switchView fragment ?b'] =>
      destruct (switchView_loaded fragment b' Hloaded) as [H1 H2];
      unfold initialFetches; rewrite H1, H2
    end.
    auto.
  - destruct (clickable _ _); [|auto]. split; [exact Hloaded|].
    unfold initialFetches. simpl. rewrite count_national_app. simpl. lia.
  - destruct (Dashboard.pending (analytics b) !! i) as [[|code]|];
      destruct response as [n d h|h]; auto.
    + split; [reflexivity|].
      unfold initialFetches. simpl. unfold Dashboard.init_resume.
      destruct (Dashboard.loadData_resume n d h); reflexivity.
    + split; [exact Hloaded|].
      unfold initialFetches. simpl. unfold Dashboard.filterByDepartment_resume.
      destruct h; [destruct (Dashboard.data _)|]; reflexivity.
Qed.

Lemma run_after_loaded events b :
  dashboardLoaded (appState b) = true ->
  dashboardLoaded (appState (run events b)) = true
  /\ initialFetches (run events b) = initialFetches b.
Proof.
  intros Hloaded.
  apply (browser_run_invariant
           (fun b' => dashboardLoaded (appState b') = true
                      /\ initialFetches b' = initialFetches b)).
  - intros b' ev [H1 H2].
    destruct (step_after_loaded b' ev H1) as [H3 H4]. split; congruence.
  - auto.
Qed.

(** When the first [init] settles before anything else happens, with its
    data or with a failure, every later run leaves the count at one. *)
Lemma one_fetch_when_init_settles_first index_html dashboard_html lang
    n d h events :
  initialFetches
    (run (NavClick "dashboard" :: Settle 0 (Dashboard.InitResponses n d h)
          :: events)
       (initial index_html dashboard_html lang)) = 1%nat.
Proof.
  change (run (NavClick "dashboard" :: Settle 0 (Dashboard.InitResponses n d h)
               :: events) (initial index_html dashboard_html lang))
    with (run events
            (step (step (initial index_html dashboard_html lang)
                     (NavClick "dashboard"))
               (Settle 0 (Dashboard.InitResponses n d h)))).
  destruct (run_after_loaded events
              (step (step (initial index_html dashboard_html lang)
                       (NavClick "dashboard"))
                 (Settle 0 (Dashboard.InitResponses n d h))) eq_refl)
    as [_ ->].
  unfold initialFetches. simpl.
  unfold Dashboard.init_resume.
  destruct (Dashboard.loadData_resume n d h); reflexivity.
Qed.

(** C6, on the code.  Whatever the page, two switches to the dashboard
    view before the fetches of the first one settle start two three-way
    fetches: both flags ([AppState.dashboardLoaded], [Dashboard.loaded])
    are set only when an [init] completes. *)
Theorem C6_second_switch_before_settlement_fetches_again :
  forall (index_html : NavPage) (dashboard_html : Dashboard.Page)
         (lang : Translations.Lang),
    let b :=
      run [NavClick "dashboard"; NavClick "dashboard"]
        (initial index_html dashboard_html lang) in
    initialFetches b = 2%nat
    /\ Dashboard.sent (analytics b)
       = [GetNational; GetDepartments; GetHistory None;
          GetNational; GetDepartments; GetHistory None]
    /\ Dashboard.pending (analytics b)
       = [Dashboard.AwaitInit; Dashboard.AwaitInit].
Proof. intros. repeat split. Qed.

(** The same happens after a single click: [switchView] assigns the
    fragment, the browser fires [hashchange], and the listener calls
    [switchView] again while the first [init] is pending. *)
Remark hashchange_echo_fetches_again :
  forall (index_html : NavPage) (dashboard_html : Dashboard.Page)
         (lang : Translations.Lang),
    initialFetches
      (run [NavClick "dashboard"; HashChange "dashboard"]
         (initial index_html dashboard_html lang)) = 2%nat.
Proof. intros. reflexivity. Qed.

End NavigationProofs.

Module SimulatorProofs.
Import Api App.

(** *** Invariants of a run *)

Lemma run_invariant (P : World -> Prop) :
  (forall w ev, P w -> P (step w ev)) ->
  forall events w, P w -> P (run events w).
Proof.
  intros Hstep events. unfold run.
  induction events as [|ev events IH]; intros w Hw; simpl; auto.
Qed.

Lemma get_set_eq {A : Type} type (v : A) object :
  get type (set type v object) = v.
Proof. destruct type; reflexivity. Qed.

Lemma get_set_ne {A : Type} type type' (v : A) object :
  type <> type' -> get type' (set type v object) = get type' object.
Proof. destruct type, type'; intros H; try reflexivity; contradiction. Qed.

Lemma get_for_each {A B : Type} (f : InvestmentKind -> A -> B -> B)
    investments targets type :
  get type (for_each f investments targets)
  = f type (get type investments) (get type targets).
Proof. destruct type; reflexivity. Qed.

(** Case analysis on how [displayResults] ended. *)
Ltac case_display :=
  match goal with
  | |- context [displayResults ?s ?e] =>
      let H := fresh "Hdisplay" in
      destruct (displayResults s e) as [? [|?]] eqn:H
  end.

(** What the display helpers leave alone. *)

Lemma displayResults_cards s e :
  investmentCards (displayResults s e).1 = investmentCards e.
Proof.
  unfold displayResults.
  destruct (currentPrediction s); [|reflexivity].
  destruct (baseline s); reflexivity.
Qed.

Lemma updatePrediction_begin_state w :
  state (updatePrediction_begin w) = state w.
Proof.
  unfold updatePrediction_begin.
  destruct (adjustments_of (state w)); reflexivity.
Qed.

Lemma updatePrediction_begin_cards w :
  investmentCards (page (updatePrediction_begin w))
  = investmentCards (page w).
Proof.
  unfold updatePrediction_begin.
  destruct (adjustments_of (state w)); reflexivity.
Qed.

Lemma updatePrediction_resume_cards response w :
  investmentCards (page (updatePrediction_resume response w))
  = investmentCards (page w).
Proof.
  unfold updatePrediction_resume.
  destruct response as [prediction|message]; [|reflexivity].
  pose proof (displayResults_cards
                (with_currentPrediction (Some prediction) (state w)) (page w)) as H.
  destruct (displayResults _ _) as [e [|m]]; simpl in *; exact H.
Qed.

Lemma updatePrediction_resume_levels response w :
  investments (state (updatePrediction_resume response w))
  = investments (state w).
Proof.
  unfold updatePrediction_resume.
  destruct response as [prediction|message]; [|reflexivity].
  destruct (displayResults _ _) as [e [|m]]; reflexivity.
Qed.

Lemma updatePrediction_resume_budget response w :
  budget (state (updatePrediction_resume response w)) = budget (state w).
Proof.
  unfold updatePrediction_resume.
  destruct response as [prediction|message]; [|reflexivity].
  destruct (displayResults _ _) as [e [|m]]; reflexivity.
Qed.

Lemma handleLoadData_begin_state w :
  state (handleLoadData_begin w) = state w.
Proof. unfold handleLoadData_begin. destruct (truthy _); reflexivity. Qed.

Lemma handleLoadData_begin_cards w :
  investmentCards (page (handleLoadData_begin w)) = investmentCards (page w).
Proof. unfold handleLoadData_begin. destruct (truthy _); reflexivity. Qed.

(** After [updateInvestmentLevels] every card shows the level of its
    kind: at level 3 and above its button is disabled. *)
Lemma updateInvestmentLevels_caps s e type card :
  get type (investmentCards (updateInvestmentLevels s e)) = Some card ->
  3 <= get type (investments s) ->
  disabled (btn_invest card) = true.
Proof.
  unfold updateInvestmentLevels. simpl. rewrite get_for_each.
  destruct (get type (investmentCards e)) as [old|]; simpl; [|discriminate].
  intros [= <-] Hlevel. simpl. unfold updateButton.
  destruct (Z.leb_spec 3 (get type (investments s))); [reflexivity | lia].
Qed.

Lemma resetInvestments_levels s e type :
  get type (investments (resetInvestments s e).1) = 0.
Proof. destruct type; reflexivity. Qed.

Lemma resetInvestments_budget s e :
  budget (resetInvestments s e).1 = budget s.
Proof. reflexivity. Qed.

Lemma handleReset_levels w type : level type (handleReset w) = 0.
Proof.
  unfold handleReset, level. simpl.
  destruct (truthy _); [rewrite handleLoadData_begin_state|];
    destruct type; reflexivity.
Qed.

Lemma handleReset_budget w : budget (state (handleReset w)) = 10000.
Proof.
  unfold handleReset. simpl.
  destruct (truthy _); [rewrite handleLoadData_begin_state|]; reflexivity.
Qed.

Lemma handleLoadData_resume_levels response w type :
  level type (handleLoadData_resume response w) = level type w
  \/ level type (handleLoadData_resume response w) = 0.
Proof.
  unfold handleLoadData_resume, level.
  destruct response as [prediction|message]; [right | left; reflexivity].
  unfold resetInvestments. case_display; destruct type; reflexivity.
Qed.

Lemma handleLoadData_resume_budget response w :
  budget (state (handleLoadData_resume response w)) = budget (state w).
Proof.
  unfold handleLoadData_resume.
  destruct response as [prediction|message]; [|reflexivity].
  unfold resetInvestments. case_display; reflexivity.
Qed.

(** The state after a handled investment. *)
Lemma handleInvestment_state type cost w :
  state (handleInvestment type cost w)
  = if budget (state w) <? cost then state w
    else with_investments
           (set type (level type w + 1) (investments (state w)))
           (with_budget (budget (state w) - cost) (state w)).
Proof.
  unfold handleInvestment, level.
  destruct (budget (state w) <? cost); [reflexivity|].
  rewrite updatePrediction_begin_state. reflexivity.
Qed.

Lemma level_handleInvestment type cost w type' :
  level type' (handleInvestment type cost w)
  = if budget (state w) <? cost then level type' w
    else if decide (type = type') then level type' w + 1
    else level type' w.
Proof.
  unfold level at 1. rewrite handleInvestment_state.
  destruct (budget (state w) <? cost); [reflexivity|]. simpl.
  destruct (decide (type = type')) as [->|Hne].
  - apply get_set_eq.
  - apply get_set_ne; assumption.
Qed.

Lemma handleInvestment_cards_debited type cost w card type' :
  cost <= budget (state w) ->
  get type' (investmentCards (page (handleInvestment type cost w))) = Some card ->
  3 <= level type' (handleInvestment type cost w) ->
  disabled (btn_invest card) = true.
Proof.
  intros Hcost. unfold level. rewrite handleInvestment_state.
  unfold handleInvestment.
  destruct (Z.ltb_spec (budget (state w)) cost) as [Hlt|_]; [lia|].
  rewrite updatePrediction_begin_cards. simpl.
  apply updateInvestmentLevels_caps.
Qed.

Lemma handleInvestment_cards_refused type cost w :
  budget (state w) < cost ->
  investmentCards (page (handleInvestment type cost w))
  = investmentCards (page w).
Proof.
  intros Hcost. unfold handleInvestment.
  destruct (Z.ltb_spec (budget (state w)) cost) as [_|Hge]; [reflexivity | lia].
Qed.

(** The two invariants are kept together: the cap on the levels relies on
    the disabled buttons, and the buttons are refreshed after every change
    of the levels. *)
Lemma step_keeps_levels w ev :
  levels_in_range w /\ capped w ->
  levels_in_range (step w ev) /\ capped (step w ev).
Proof.
  intros [Hrange Hcap].
  destruct ev as [type| | |value|value|i response|]; simpl.
  - (* ClickInvest *)
    destruct (get type (investmentCards (page w))) as [card|] eqn:Hcard;
      [|split; assumption].
    destruct (disabled (btn_invest card)) eqn:Hdisabled; [split; assumption|].
    assert (level type w <= 2) as Hroom.
    { destruct (Z.le_gt_cases 3 (level type w)) as [H3|H3]; [|lia].
      rewrite (Hcap type card Hcard H3) in Hdisabled. discriminate. }
    set (cost := data_cost (btn_invest card)).
    destruct (Z.lt_ge_cases (budget (state w)) cost) as [Hlt|Hge].
    + split.
      * intros type'. rewrite level_handleInvestment.
        destruct (Z.ltb_spec (budget (state w)) cost); [apply Hrange | lia].
      * intros type' card' Hcard' Hlevel.
        rewrite handleInvestment_cards_refused in Hcard' by assumption.
        rewrite level_handleInvestment in Hlevel.
        destruct (Z.ltb_spec (budget (state w)) cost); [|lia].
        eapply Hcap; eassumption.
    + split.
      * intros type'. rewrite level_handleInvestment.
        destruct (Z.ltb_spec (budget (state w)) cost); [lia|].
        destruct (decide (type = type')) as [<-|_];
          [specialize (Hrange type); lia | apply Hrange].
      * intros type' card'.
        apply handleInvestment_cards_debited. assumption.
  - (* ClickReset *)
    split.
    + intros type. rewrite handleReset_levels. lia.
    + intros type card _ Hlevel. rewrite handleReset_levels in Hlevel. lia.
  - (* ClickLoad *)
    split.
    + intros type. unfold level. rewrite handleLoadData_begin_state.
      apply Hrange.
    + intros type card. unfold level.
      rewrite handleLoadData_begin_state, handleLoadData_begin_cards.
      apply Hcap.
  - (* ChangeDepartment *)
    unfold handleDepartmentChange. destruct (truthy _); split; assumption.
  - (* ChangeMunicipality *)
    split; assumption.
  - (* Settle *)
    destruct (pending w !! i) as [[|]|]; [| |split; assumption].
    + split.
      * intros type. unfold level. rewrite updatePrediction_resume_levels.
        apply Hrange.
      * intros type card. unfold level.
        rewrite updatePrediction_resume_levels, updatePrediction_resume_cards.
        apply Hcap.
    + destruct response as [prediction|message].
      * split.
        -- intros type.
           destruct (handleLoadData_resume_levels (Resolved prediction)
                       (settled i w) type) as [H|H]; rewrite H;
             [apply Hrange | lia].
        -- intros type card _ Hlevel.
           assert (level type (handleLoadData_resume (Resolved prediction)
                                 (settled i w)) = 0) as H0.
           { unfold handleLoadData_resume, level, resetInvestments.
             case_display; destruct type; reflexivity. }
           lia.
      * split; assumption.
  - (* Timeout *)
    destruct (timers w); split; assumption.
Qed.

Lemma initial_levels index_html :
  levels_in_range (initial index_html) /\ capped (initial index_html).
Proof.
  split.
  - intros type. destruct type; unfold level; simpl; lia.
  - intros type card _ Hlevel. destruct type; unfold level in Hlevel;
      simpl in Hlevel; lia.
Qed.

Lemma run_keeps_levels index_html events :
  levels_in_range (run events (initial index_html))
  /\ capped (run events (initial index_html)).
Proof.
  apply (run_invariant (fun w => levels_in_range w /\ capped w)).
  - intros w ev. apply step_keeps_levels.
  - apply initial_levels.
Qed.

(** The cap is kept by the disabled button: [handleInvestment] itself
    compares the budget only, and run on a kind at level 3 it would go on
    to level 4. *)
Remark handleInvestment_compares_budget_only :
  let w :=
    run [ClickInvest coverage; ClickInvest coverage; ClickInvest coverage]
      (initial example_page) in
  level coverage w = 3
  /\ level coverage (handleInvestment coverage 1000 w) = 4.
Proof. split; reflexivity. Qed.

(** C1. Whatever the page and whatever the sequence of user actions and
    settled requests from the initial state, the level of every investment
    kind stays between 0 and 3; and in a state so reached, a click on the
    button of a kind at level 3 changes nothing: budget, levels and the
    list of requests sent are the same (the world is unchanged). *)
Theorem C1_levels_stay_within_0_and_3 :
  forall (index_html : Elements) (events : list Event) (type : InvestmentKind),
    let w := run events (initial index_html) in
    0 <= level type w <= 3
    /\ (level type w = 3 -> step w (ClickInvest type) = w).
Proof.
  intros index_html events type w.
  destruct (run_keeps_levels index_html events) as [Hrange Hcap].
  fold w in Hrange, Hcap. split; [apply Hrange|].
  intros H3. simpl.
  destruct (get type (investmentCards (page w))) as [card|] eqn:Hcard;
    [|reflexivity].
  rewrite (Hcap type card Hcard); [reflexivity | lia].
Qed.

Lemma C1_levels_witness :
  let w :=
    run [ClickInvest coverage; ClickInvest coverage; ClickInvest coverage]
      (initial example_page) in
  level coverage w = 3 /\ step w (ClickInvest coverage) = w.
Proof.
  split.
  - reflexivity.
  - apply (C1_levels_stay_within_0_and_3 example_page
             [ClickInvest coverage; ClickInvest coverage; ClickInvest coverage]
             coverage).
    reflexivity.
Defined.

(** *** Budget *)

Lemma step_keeps_budget w ev :
  0 <= budget (state w) -> 0 <= budget (state (step w ev)).
Proof.
  intros Hbudget.
  destruct ev as [type| | |value|value|i response|]; simpl.
  - destruct (get type (investmentCards (page w))) as [card|]; [|assumption].
    destruct (disabled (btn_invest card)); [assumption|].
    rewrite handleInvestment_state.
    destruct (Z.ltb_spec (budget (state w)) (data_cost (btn_invest card)));
      simpl; lia.
  - rewrite handleReset_budget. lia.
  - rewrite handleLoadData_begin_state. assumption.
  - unfold handleDepartmentChange. destruct (truthy _); assumption.
  - assumption.
  - destruct (pending w !! i) as [[|]|]; [| |assumption].
    + rewrite updatePrediction_resume_budget. assumption.
    + rewrite handleLoadData_resume_budget. assumption.
  - destruct (timers w); assumption.
Qed.

Lemma handleInvestment_sent_refused type cost w :
  budget (state w) < cost ->
  sent (handleInvestment type cost w) = sent w
  /\ pending (handleInvestment type cost w) = pending w.
Proof.
  intros Hcost. unfold handleInvestment.
  destruct (Z.ltb_spec (budget (state w)) cost); [split; reflexivity | lia].
Qed.

(** C4. In every run from the initial state the budget is never negative.
    A run of [handleInvestment] for kind [type] with [cost <= budget]
    takes exactly [cost] from the budget (and adds one level to [type]);
    with [budget < cost] it leaves the state (budget and all levels)
    as it was, sends nothing, and ends normally after putting the notice
    'Presupuesto insuficiente' in the error element. *)
Theorem C4_budget_never_negative_and_debited_by_cost :
  forall (index_html : Elements) (events : list Event)
         (w : World) (type : InvestmentKind) (cost : Z),
    0 <= budget (state (run events (initial index_html)))
    /\ (cost <= budget (state w) ->
        budget (state (handleInvestment type cost w)) = budget (state w) - cost
        /\ level type (handleInvestment type cost w) = level type w + 1)
    /\ (budget (state w) < cost ->
        state (handleInvestment type cost w) = state w
        /\ sent (handleInvestment type cost w) = sent w
        /\ errorMessage (page (handleInvestment type cost w))
           = write ("Presupuesto insuficiente", "block") (errorMessage (page w))).
Proof.
  intros index_html events w type cost. split; [|split].
  - apply (run_invariant (fun w => 0 <= budget (state w))).
    + intros w0 ev. apply step_keeps_budget.
    + simpl. lia.
  - intros Hcost. rewrite level_handleInvestment, handleInvestment_state.
    destruct (Z.ltb_spec (budget (state w)) cost); [lia|].
    split; [reflexivity|].
    destruct (decide (type = type)); [reflexivity | contradiction].
  - intros Hcost. rewrite handleInvestment_state.
    destruct (handleInvestment_sent_refused type cost w Hcost) as [Hsent _].
    unfold handleInvestment in *.
    destruct (Z.ltb_spec (budget (state w)) cost); [|lia].
    repeat split.
Qed.

Lemma C4_budget_witness :
  (budget (state (handleInvestment staffing 4000 (initial example_page))) = 6000
   /\ level staffing (handleInvestment staffing 4000 (initial example_page)) = 1)
  /\ state (handleInvestment staffing 12000 (initial example_page))
     = state (initial example_page).
Proof.
  split.
  - apply (C4_budget_never_negative_and_debited_by_cost example_page []
             (initial example_page) staffing 4000).
    simpl. lia.
  - apply (C4_budget_never_negative_and_debited_by_cost example_page []
             (initial example_page) staffing 12000).
    simpl. lia.
Defined.

(** The same on the page: a click on an enabled button whose cost the
    budget covers takes that cost. *)
Lemma accepted_click_debits_the_cost_on_the_button w type card :
  get type (investmentCards (page w)) = Some card ->
  disabled (btn_invest card) = false ->
  data_cost (btn_invest card) <= budget (state w) ->
  budget (state (step w (ClickInvest type)))
  = budget (state w) - data_cost (btn_invest card)
  /\ level type (step w (ClickInvest type)) = level type w + 1.
Proof.
  intros Hcard Henabled Hcost. simpl. rewrite Hcard, Henabled.
  rewrite level_handleInvestment, handleInvestment_state.
  destruct (Z.ltb_spec (budget (state w)) (data_cost (btn_invest card)));
    [lia|].
  split; [reflexivity|].
  destruct (decide (type = type)); [reflexivity | contradiction].
Qed.

(** *** Reset *)

(** C9. Whatever the state before, [handleReset] leaves the budget at
    10000 and the four levels at 0; the baseline fetch it starts keeps
    both when it settles, with a prediction or with a failure. *)
Theorem C9_reset_restores_budget_and_levels :
  forall (w : World),
    budget (state (handleReset w)) = 10000
    /\ investments (state (handleReset w)) = Build_PerKind 0 0 0 0
    /\ (forall type, level type (handleReset w) = 0)
    /\ (forall response,
          budget (state (handleLoadData_resume response (handleReset w))) = 10000
          /\ investments (state (handleLoadData_resume response (handleReset w)))
             = Build_PerKind 0 0 0 0).
Proof.
  intros w.
  assert (investments (state (handleReset w)) = Build_PerKind 0 0 0 0) as Hlevels.
  { unfold handleReset. simpl.
    destruct (truthy _); [rewrite handleLoadData_begin_state|]; reflexivity. }
  split; [apply handleReset_budget|].
  split; [exact Hlevels|].
  split; [intros type; apply handleReset_levels|].
  intros response. split.
  - rewrite handleLoadData_resume_budget. apply handleReset_budget.
  - unfold handleLoadData_resume.
    destruct response as [prediction|message]; [|exact Hlevels].
    unfold resetInvestments. case_display; reflexivity.
Qed.

(** *** The scenario adjustments *)








(** The scenario of the specification: from the baseline with
    [classroom_density = 30.0], one investment in staffing (improvement
    -2.0) sends [classroom_density: 28.0] and no other adjustment; the
    response becomes the current prediction, the baseline stays. *)
Example scenario_one_staffing_investment :
  let w := handleInvestment staffing 4000 (example_loaded example_page) in
  (exists body adjustments q,
      sent w = sent (example_loaded example_page) ++ [PostPredict body]
      /\ scenario_adjustments body = Some adjustments
      /\ adjustments = {[ "classroom_density" := Finite q ]}
      /\ (q == 28.0)%Q)
  /\ forall prediction,
      currentPrediction (state (updatePrediction_resume (Resolved prediction) w))
      = Some prediction
      /\ baseline (state (updatePrediction_resume (Resolved prediction) w))
         = Some example_prediction.
Proof.
  split.
  - eexists _, _, _. split; [reflexivity|]. split; [reflexivity|].
    split; [vm_compute; reflexivity|]. reflexivity.
  - intros prediction. unfold updatePrediction_resume.
    case_display; simpl; auto.
Qed.

Example three_clicks_reach_level_3 :
  level coverage
    (run [ClickInvest coverage; ClickInvest coverage; ClickInvest coverage]
       (initial example_page)) = 3.
Proof. reflexivity. Qed.

End SimulatorProofs.

(* ===================================================================== *)
(** * Further properties of the dashboard                                 *)
(* ===================================================================== *)

Module DashboardExtras.
Import Api Translations Charts Dashboard ChartsProofs.

(** *** The order of the department list *)

Lemma insertByRate_perm d sorted : insertByRate d sorted ≡ₚ d :: sorted.
Proof.
  induction sorted as [|x rest IH]; simpl; [reflexivity|].
  destruct (ltb (dropout_rate d) (dropout_rate x)); [|reflexivity].
  rewrite IH. apply perm_swap.
Qed.

Lemma sortByRate_perm depts : sortByRate depts ≡ₚ depts.
Proof.
  induction depts as [|d depts IH]; simpl; [reflexivity|].
  rewrite insertByRate_perm, IH. reflexivity.
Qed.

Lemma insertByRate_sorted d sorted :
  StronglySorted descending sorted ->
  StronglySorted descending (insertByRate d sorted).
Proof.
  induction 1 as [|x rest Hrest IH Hx]; simpl.
  - repeat constructor.
  - destruct (ltb (dropout_rate d) (dropout_rate x)) eqn:Hlt.
    + constructor; [exact IH|].
      rewrite insertByRate_perm. constructor; [|exact Hx].
      apply ltb_lt in Hlt. apply Qlt_le_weak. exact Hlt.
    + apply ltb_ge in Hlt.
      constructor; [constructor; assumption|].
      constructor; [exact Hlt|].
      eapply Forall_impl; [exact Hx|].
      intros y Hy. unfold descending in *. eapply Qle_trans; eassumption.
Qed.

Lemma sortByRate_sorted depts : StronglySorted descending (sortByRate depts).
Proof.
  induction depts as [|d depts IH]; simpl; [constructor|].
  apply insertByRate_sorted. exact IH.
Qed.

(** X1. On a page with the list container, [renderDepartmentList] shows
    one item per department of the fetched list, each department once, and
    no item comes before one with a greater rate. *)
Theorem rendered_list_is_in_descending_order :
  forall (lang : Lang) (s : State) (d : Data) (p : Page)
         (content : option DeptList),
    departmentList p = Some content ->
    exists view sorted,
      departmentList (renderDepartmentList lang s d p) = Some (Some view)
      /\ items view = renderItem lang (selectedDepartment s) <$> sorted
      /\ sorted ≡ₚ departments (department_analytics d)
      /\ StronglySorted descending sorted.
Proof.
  intros lang s d p content Hcontainer.
  unfold renderDepartmentList. rewrite Hcontainer.
  set (sorted := sortByRate (departments (department_analytics d))).
  exists {| all_selected :=
              match selectedDepartment s with
              | None => true
              | Some _ => false
              end;
            all_text :=
              match lang with
              | en => "🇨🇴 All Departments (National)"
              | es => "🇨🇴 Todos los Departamentos (Nacional)"
              end;
            items := renderItem lang (selectedDepartment s) <$> sorted |},
    sorted.
  split; [reflexivity|]. split; [reflexivity|].
  split; [apply sortByRate_perm | apply sortByRate_sorted].
Qed.

Lemma rendered_list_order_witness :
  exists view sorted,
    departmentList
      (renderDepartmentList en (dashboard example_ready)
         (data_of example_ready) example_page) = Some (Some view)
    /\ items view = renderItem en None <$> sorted
    /\ sorted ≡ₚ departments example_departments
    /\ StronglySorted descending sorted.
Proof.
  exact (rendered_list_is_in_descending_order en (dashboard example_ready)
           (data_of example_ready) example_page None eq_refl).
Defined.

(** Departments with the same rate keep the order of the fetched list. *)
Lemma withRate_insertByRate rate d sorted :
  withRate rate (insertByRate d sorted) = withRate rate (d :: sorted).
Proof.
  induction sorted as [|x rest IH]; [reflexivity|].
  simpl insertByRate.
  destruct (ltb (dropout_rate d) (dropout_rate x)) eqn:Hlt; [|reflexivity].
  apply ltb_lt in Hlt.
  unfold withRate in *. simpl in *. rewrite IH.
  destruct (Qeq_bool (dropout_rate x) rate) eqn:Hx; [|reflexivity].
  destruct (Qeq_bool (dropout_rate d) rate) eqn:Hd; [|reflexivity].
  apply Qeq_bool_iff in Hx, Hd. exfalso.
  rewrite Hx, Hd in Hlt. exact (Qlt_irrefl _ Hlt).
Qed.

(** X2. The order is stable: for every rate, the departments with that
    rate appear in the sorted list in the order of the fetched list. *)
Theorem sort_keeps_the_order_of_equal_rates :
  forall (rate : Q) (depts : list DepartmentStat),
    withRate rate (sortByRate depts) = withRate rate depts.
Proof.
  intros rate depts.
  induction depts as [|d depts IH]; [reflexivity|].
  simpl sortByRate. rewrite withRate_insertByRate.
  unfold withRate in *. simpl. rewrite IH. reflexivity.
Qed.

(** *** The selected item *)

Lemma selected_count_map lang c depts :
  length (List.filter item_selected (renderItem lang (Some c) <$> depts))
  = length (List.filter (fun d => String.eqb c (code d)) depts).
Proof.
  induction depts as [|d depts IH]; [reflexivity|].
  rewrite fmap_cons. cbn [List.filter renderItem item_selected].
  destruct (String.eqb c (code d)); cbn [length]; rewrite IH; reflexivity.
Qed.

Lemma selected_count_none lang depts :
  List.filter item_selected (renderItem lang None <$> depts) = [].
Proof.
  induction depts as [|d depts IH]; [reflexivity|].
  rewrite fmap_cons. cbn [List.filter renderItem item_selected]. exact IH.
Qed.

Lemma count_code_perm c depts depts' :
  depts ≡ₚ depts' ->
  length (List.filter (fun d => String.eqb c (code d)) depts)
  = length (List.filter (fun d => String.eqb c (code d)) depts').
Proof.
  induction 1 as [|x l l' _ IH|x y l|l l' l'' _ IH1 _ IH2]; simpl.
  - reflexivity.
  - destruct (String.eqb c (code x)); simpl; rewrite IH; reflexivity.
  - destruct (String.eqb c (code x)), (String.eqb c (code y)); reflexivity.
  - congruence.
Qed.

Lemma count_code_absent c depts :
  c ∉ code <$> depts ->
  length (List.filter (fun d => String.eqb c (code d)) depts) = 0%nat.
Proof.
  induction depts as [|d depts IH]; [reflexivity|].
  rewrite fmap_cons, not_elem_of_cons. intros [Hne Hrest]. simpl.
  destruct (String.eqb_spec c (code d)); [contradiction|]. auto.
Qed.

Lemma count_code_unique c depts :
  NoDup (code <$> depts) ->
  c ∈ code <$> depts ->
  length (List.filter (fun d => String.eqb c (code d)) depts) = 1%nat.
Proof.
  induction depts as [|d depts IH]; simpl.
  - intros _ H. inversion H.
  - rewrite NoDup_cons, elem_of_cons. intros [Hfresh Hnodup] Hin.
    destruct (String.eqb_spec c (code d)) as [->|Hne].
    + simpl. rewrite count_code_absent by exact Hfresh. reflexivity.
    + destruct Hin as [?|Hin]; [contradiction|]. auto.
Qed.

(** X3. In the rendered list the 'all' item is marked exactly when no
    department is selected.  With the national scope, or with a selected
    code that no department has, no department item is marked; when the
    codes of the fetched list are pairwise different and one of them is
    selected, exactly one department item is marked. *)
Theorem rendered_list_marks_the_selection :
  forall (lang : Lang) (s : State) (d : Data) (p : Page)
         (content : option DeptList),
    departmentList p = Some content ->
    exists view,
      departmentList (renderDepartmentList lang s d p) = Some (Some view)
      /\ (all_selected view = true <-> selectedDepartment s = None)
      /\ (selectedDepartment s = None -> selectedItems view = 0%nat)
      /\ (forall c,
            selectedDepartment s = Some c ->
            c ∉ code <$> departments (department_analytics d) ->
            selectedItems view = 0%nat)
      /\ (forall c,
            selectedDepartment s = Some c ->
            c ∈ code <$> departments (department_analytics d) ->
            NoDup (code <$> departments (department_analytics d)) ->
            selectedItems view = 1%nat).
Proof.
  intros lang s d p content Hcontainer.
  unfold renderDepartmentList. rewrite Hcontainer.
  eexists. split; [reflexivity|]. unfold selectedItems. simpl.
  split; [|split; [|split]].
  - destruct (selectedDepartment s); split; intros H; congruence.
  - intros ->. rewrite selected_count_none. reflexivity.
  - intros c -> Habsent.
    rewrite selected_count_map, (count_code_perm _ _ _ (sortByRate_perm _)).
    apply count_code_absent. exact Habsent.
  - intros c -> Hin Hnodup.
    rewrite selected_count_map, (count_code_perm _ _ _ (sortByRate_perm _)).
    apply count_code_unique; assumption.
Qed.

Lemma example_codes_distinct :
  NoDup (code <$> departments example_departments).
Proof. apply (bool_decide_unpack _). vm_compute. exact I. Qed.

Lemma rendered_list_selection_witness :
  exists view,
    departmentList
      (renderDepartmentList en (with_selectedDepartment (Some "27") initial_state)
         (data_of example_ready) example_page) = Some (Some view)
    /\ all_selected view = false
    /\ selectedItems view = 1%nat.
Proof.
  destruct (rendered_list_marks_the_selection en
              (with_selectedDepartment (Some "27") initial_state)
              (data_of example_ready) example_page None eq_refl)
    as (view & Hview & Hall & _ & _ & Hone).
  exists view. split; [exact Hview|]. split.
  - destruct (all_selected view); [|reflexivity].
    destruct Hall as [Hall _]. discriminate (Hall eq_refl).
  - apply (Hone "27" eq_refl).
    + apply (bool_decide_unpack _). vm_compute. exact I.
    + exact example_codes_distinct.
Defined.

(** *** The department KPIs and the length of the series *)

Lemma last_two {A : Type} (earlier : list A) (previous latest : A) :
  last (earlier ++ [previous; latest]) = Some latest
  /\ (1 <? length (earlier ++ [previous; latest]))%nat = true
  /\ (earlier ++ [previous; latest])
       !! (length (earlier ++ [previous; latest]) - 2)%nat = Some previous.
Proof.
  split; [|split].
  - change [previous; latest] with ([previous] ++ [latest]).
    rewrite app_assoc. apply last_snoc.
  - apply Nat.ltb_lt. rewrite length_app. simpl. lia.
  - rewrite length_app. simpl.
    replace (length earlier + 2 - 2)%nat with (length earlier + 0)%nat by lia.
    rewrite lookup_app_r by lia.
    replace (length earlier + 0 - length earlier)%nat with 0%nat by lia.
    reflexivity.
Qed.

(** X4. [updateKPIsForDepartment] for a department code and a fetched
    series.  With an empty series the rate, change, students and funnel
    elements keep what they show.  With a single point the three values
    are written from it and the change element keeps what it shows.  With
    two points or more the change is the last rate minus the one before
    it, written only on a page that has the rate element. *)
Theorem department_kpis_follow_the_length_of_the_series :
  forall (lang : Lang) (d : Data) (departmentCode : option string)
         (trends : HistoricalTrends) (p : Page),
    truthy departmentCode = true ->
    let after := updateKPIsForDepartment lang d departmentCode trends p in
    (data_points trends = [] ->
     kpi_dropout after = kpi_dropout p
     /\ kpi_dropout_change after = kpi_dropout_change p
     /\ kpi_students after = kpi_students p
     /\ kpi_funnel after = kpi_funnel p)
    /\ (forall only,
          data_points trends = [only] ->
          kpi_dropout after
          = write [Fixed 2 (point_dropout_rate only); Lit "%"] (kpi_dropout p)
          /\ kpi_dropout_change after = kpi_dropout_change p
          /\ kpi_students after
             = write [formatNumber (students only) 0] (kpi_students p)
          /\ kpi_funnel after
             = write [Fixed 1 (funnel_ratio only * 100); Lit "%"] (kpi_funnel p))
    /\ (forall earlier previous latest,
          data_points trends = earlier ++ [previous; latest] ->
          kpi_dropout after
          = write [Fixed 2 (point_dropout_rate latest); Lit "%"] (kpi_dropout p)
          /\ kpi_dropout_change after
             = if present (kpi_dropout p)
               then write
                      (changeText lang
                         (point_dropout_rate latest - point_dropout_rate previous))
                      (kpi_dropout_change p)
               else kpi_dropout_change p).
Proof.
  intros lang d departmentCode trends p Hcode after. subst after.
  unfold updateKPIsForDepartment. rewrite Hcode. simpl.
  split; [|split].
  - intros ->. simpl. destruct (kpi_dropout p); repeat split.
  - intros only ->. simpl. destruct (kpi_dropout p); repeat split.
  - intros earlier previous latest ->.
    destruct (last_two earlier previous latest) as (-> & -> & ->).
    destruct (kpi_dropout p); split; reflexivity.
Qed.

Lemma department_kpis_witness :
  kpi_dropout_change
    (updateKPIsForDepartment en (data_of example_ready) (Some "27")
       (example_history (Some "27") 3.8) example_page)
  = Some (changeText en ((5.1 + 3.8) - (4.6 + 3.8))).
Proof.
  destruct (department_kpis_follow_the_length_of_the_series en
              (data_of example_ready) (Some "27")
              (example_history (Some "27") 3.8) example_page eq_refl)
    as (_ & _ & Htwo).
  destruct (Htwo [{| year := 2022; point_dropout_rate := (4.0 + 3.8)%Q;
                     students := 9300000; funnel_ratio := 0.70 |}]
              {| year := 2023; point_dropout_rate := (4.6 + 3.8)%Q;
                 students := 9400000; funnel_ratio := 0.71 |}
              {| year := 2024; point_dropout_rate := (5.1 + 3.8)%Q;
                 students := 9500000; funnel_ratio := 0.72 |} eq_refl)
    as [_ Hchange].
  rewrite Hchange. reflexivity.
Defined.

(** *** A filter that gets its series *)

Lemma delete_last {A : Type} (l : list A) (x : A) :
  delete (length l) (l ++ [x]) = l.
Proof. induction l as [|y l IH]; simpl; [reflexivity | rewrite IH; reflexivity]. Qed.

(** What the KPI update leaves alone. *)
Lemma updateKPIsForDepartment_frame lang d departmentCode trends p :
  let after := updateKPIsForDepartment lang d departmentCode trends p in
  trendChart after = trendChart p
  /\ funnelChart after = funnelChart p
  /\ departmentList after = departmentList p
  /\ viewDashboard after = viewDashboard p
  /\ headerTitle after = headerTitle p
  /\ trendTitle after = trendTitle p
  /\ funnelTitle after = funnelTitle p.
Proof.
  unfold updateKPIsForDepartment.
  destruct (negb (truthy departmentCode)); repeat split.
Qed.


(** X5. On a dashboard with its data, a filter whose history request
    resolves sends that one request, selects the code, stores the fetched
    series in place of the old one (national statistics and department
    list untouched), rebuilds each chart that has its canvas from exactly
    that series, leaves a chart without canvas as it was, and makes the
    view interactive again. *)
Theorem successful_filter_shows_the_fetched_series :
  forall (w : World) (d : Data) (departmentCode : option string)
         (trends : HistoricalTrends),
    data (dashboard w) = Some d ->
    let after := filterByDepartment departmentCode (Resolved trends) w in
    let points := data_points trends in
    sent after = sent w ++ [getHistoricalTrends departmentCode]
    /\ pending after = pending w
    /\ selectedDepartment (dashboard after) = departmentCode
    /\ data (dashboard after)
       = Some {| national := national d;
                 department_analytics := department_analytics d;
                 history := trends |}
    /\ trend (charts (dashboard after))
       = (if trendChart (page w)
          then Some (getTrendChartConfig (currentLanguage w) (year <$> points)
                       (point_dropout_rate <$> points))
          else trend (charts (dashboard w)))
    /\ funnel (charts (dashboard after))
       = (if funnelChart (page w)
          then Some (getFunnelChartConfig (currentLanguage w) (year <$> points)
                       (students <$> points) (funnel_ratio <$> points))
          else funnel (charts (dashboard w)))
    /\ viewDashboard (page after) = write ("1", "auto") (viewDashboard (page w)).
Proof.
  intros w d departmentCode trends Hdata after points. subst after points.
  unfold filterByDepartment, filterByDepartment_resume,
    filterByDepartment_begin. simpl.
  rewrite Hdata, length_app, Nat.add_sub. simpl.
  split; [reflexivity|].
  split; [apply delete_last|].
  match goal with
  | |- context [updateKPIsForDepartment ?l ?d' ?c ?t ?p'] =>
      destruct (updateKPIsForDepartment_frame l d' c t p')
        as (Htrend & Hfunnel & Hlist & Hview & _);
      set (p2 := updateKPIsForDepartment l d' c t p') in *
  end.
  simpl in Htrend, Hfunnel, Hlist, Hview.
  unfold createFunnelChart, createTrendChart, renderDepartmentList.
  rewrite Htrend, Hfunnel. simpl. rewrite Hlist.
  destruct (trendChart (page w)), (funnelChart (page w)),
    (departmentList (page w)); simpl; rewrite ?Hview;
    destruct (viewDashboard (page w)); repeat split.
Qed.

Lemma successful_filter_witness :
  let after :=
    filterByDepartment (Some "27") (Resolved (example_history (Some "27") 3.8))
      example_ready in
  selectedDepartment (dashboard after) = Some "27"
  /\ (history <$> data (dashboard after)) = Some (example_history (Some "27") 3.8)
  /\ (chart_labels <$> trend (charts (dashboard after)))
     = Some [2022; 2023; 2024]%Z.
Proof.
  destruct (successful_filter_shows_the_fetched_series example_ready
              (data_of example_ready) (Some "27")
              (example_history (Some "27") 3.8) eq_refl)
    as (_ & _ & Hselected & Hdata & Htrend & _).
  split; [exact Hselected|]. split.
  - rewrite Hdata. reflexivity.
  - rewrite Htrend. reflexivity.
Defined.

(** *** Titles *)

Lemma findDepartment_absent c depts :
  c ∉ code <$> depts -> findDepartment c depts = None.
Proof.
  unfold findDepartment.
  induction depts as [|x depts IH]; [reflexivity|].
  rewrite fmap_cons, not_elem_of_cons. intros [Hne Hrest]. simpl.
  destruct (String.eqb_spec (code x) c); [congruence | auto].
Qed.

Lemma findDepartment_unique dept depts :
  NoDup (code <$> depts) ->
  dept ∈ depts ->
  findDepartment (code dept) depts = Some dept.
Proof.
  unfold findDepartment.
  induction depts as [|x depts IH]; simpl.
  - intros _ H. inversion H.
  - rewrite NoDup_cons, elem_of_cons. intros [Hfresh Hnodup] Hin.
    destruct (String.eqb_spec (code x) (code dept)) as [Heq|Hne].
    + destruct Hin as [->|Hin]; [reflexivity|].
      exfalso. apply Hfresh. rewrite Heq.
      apply list_elem_of_fmap_2. exact Hin.
    + destruct Hin as [->|Hin]; [congruence | auto].
Qed.

(** X6. For a department code, the header and the two chart titles name
    the same department: by the name the fetched list gives to that code
    when the codes of the list are pairwise different, and by the code
    itself when the list has no department with it. *)
Theorem titles_name_the_department :
  forall (lang : Lang) (d : Data) (c : string) (p : Page),
    truthy (Some c) = true ->
    let titled :=
      updateChartTitles lang d (Some c)
        (updateDashboardHeader lang d (Some c) p) in
    let shown (deptName : string) :=
      headerTitle titled
      = write (match lang with
               | en => deptName +:+ " Department Analytics"
               | es => "Analítica del Departamento de " +:+ deptName
               end) (headerTitle p)
      /\ trendTitle titled
         = write (match lang with
                  | en => "Historical Dropout Trend - " +:+ deptName
                  | es => "Tendencia Histórica de Deserción - " +:+ deptName
                  end) (trendTitle p)
      /\ funnelTitle titled
         = write (match lang with
                  | en => "The 'Funnel Effect' Analysis - " +:+ deptName
                  | es => "Análisis del 'Efecto Embudo' - " +:+ deptName
                  end) (funnelTitle p) in
    (forall dept,
        dept ∈ departments (department_analytics d) ->
        code dept = c ->
        NoDup (code <$> departments (department_analytics d)) ->
        shown (name dept))
    /\ (c ∉ code <$> departments (department_analytics d) -> shown c).
Proof.
  intros lang d c p Hcode titled shown. subst titled shown.
  unfold updateChartTitles, updateDashboardHeader, departmentName.
  rewrite Hcode. simpl. split.
  - intros dept Hin <- Hnodup.
    rewrite (findDepartment_unique dept _ Hnodup Hin).
    destruct lang; repeat split.
  - intros Habsent. rewrite (findDepartment_absent c _ Habsent).
    destruct lang; repeat split.
Qed.

Lemma titles_witness :
  headerTitle
    (updateChartTitles en (data_of example_ready) (Some "27")
       (updateDashboardHeader en (data_of example_ready) (Some "27") example_page))
  = Some "Departamento 27 Department Analytics"
  /\ headerTitle
       (updateChartTitles en (data_of example_ready) (Some "99")
          (updateDashboardHeader en (data_of example_ready) (Some "99") example_page))
     = Some "99 Department Analytics".
Proof.
  split.
  - destruct (titles_name_the_department en (data_of example_ready) "27"
                example_page eq_refl) as [Hfound _].
    destruct (Hfound (example_department "27" 8.9)) as (Hheader & _).
    + change (example_department "27" 8.9 ∈ departments example_departments).
      unfold example_departments. cbn [departments].
      apply elem_of_app. right. apply elem_of_app. left.
      apply list_elem_of_singleton. reflexivity.
    + reflexivity.
    + exact example_codes_distinct.
    + exact Hheader.
  - destruct (titles_name_the_department en (data_of example_ready) "99"
                example_page eq_refl) as [_ Habsent].
    destruct Habsent as (Hheader & _).
    + apply (bool_decide_unpack _). vm_compute. exact I.
    + exact Hheader.
Defined.

(** *** Language changes *)





End DashboardExtras.

(* ===================================================================== *)
(** * Further properties of navigation                                    *)
(* ===================================================================== *)

Module NavigationExtras.
Import Js Api Navigation NavigationProofs.


Lemma hide_all_lookup (vs : list string) (m : gmap string string) (k : string) :
  foldl (fun shown v => alter (fun _ => "none") v shown) m vs !! k
  = if bool_decide (k ∈ vs) then (fun _ => "none") <$> m !! k else m !! k.
Proof.
  revert m. induction vs as [|v vs IH]; intros m; simpl; [reflexivity|].
  rewrite IH, lookup_alter.
  destruct (decide (v = k)) as [->|Hne].
  - rewrite (bool_decide_eq_true_2 (k ∈ k :: vs)) by left.
    destruct (bool_decide (k ∈ vs)), (m !! k); reflexivity.
  - destruct (decide (k ∈ vs)) as [Hin|Hout].
    + rewrite (bool_decide_eq_true_2 _ Hin).
      rewrite (bool_decide_eq_true_2 (k ∈ v :: vs)) by (right; exact Hin).
      reflexivity.
    + rewrite (bool_decide_eq_false_2 _ Hout).
      rewrite (bool_decide_eq_false_2 (k ∈ v :: vs)); [reflexivity|].
      intros [?|?]%elem_of_cons; [congruence | contradiction].
Qed.

Lemma showView_display allViews viewName n v :
  viewDisplay (showView allViews viewName n) !! v
  = match viewDisplay n !! v with
    | None => None
    | Some shown =>
        Some (if String.eqb v viewName then "block"
              else if bool_decide (v ∈ allViews) then "none" else shown)
    end.
Proof.
  unfold showView. simpl. rewrite lookup_alter, !hide_all_lookup.
  destruct (decide (viewName = v)) as [->|Hne].
  - rewrite String.eqb_refl.
    destruct (bool_decide (v ∈ allViews)), (viewDisplay n !! v); reflexivity.
  - destruct (String.eqb_spec v viewName); [congruence|].
    destruct (bool_decide (v ∈ allViews)), (viewDisplay n !! v); reflexivity.
Qed.

Lemma closeMobileMenu_frame n :
  viewDisplay (closeMobileMenu n) = viewDisplay n
  /\ navItems (closeMobileMenu n) = navItems n
  /\ hash (closeMobileMenu n) = hash n.
Proof. unfold closeMobileMenu. destruct (hamburger n), (mobileMenu n); auto. Qed.

Lemma switchView_valid viewName b :
  viewName ∈ views (appState b) ->
  currentView (appState (switchView viewName b)) = viewName
  /\ views (appState (switchView viewName b)) = views (appState b)
  /\ hash (navigation (switchView viewName b)) = viewName
  /\ (forall v,
        viewDisplay (navigation (switchView viewName b)) !! v
        = match viewDisplay (navigation b) !! v with
          | None => None
          | Some shown =>
              Some (if String.eqb v viewName then "block"
                    else if bool_decide (v ∈ views (appState b))
                         then "none" else shown)
          end)
  /\ navItems (navigation (switchView viewName b))
     = (fun item => (item.1, String.eqb item.1 viewName))
         <$> navItems (navigation b).
Proof.
  intros Hin. unfold switchView.
  rewrite bool_decide_eq_true_2 by exact Hin. simpl.
  destruct (closeMobileMenu_frame
              (showView (views (appState b)) viewName (navigation b)))
    as (Hdisplay & Hitems & Hhash).
  split; [|split; [|split; [|split]]].
  - reflexivity.
  - destruct (_ && _); reflexivity.
  - rewrite Hhash. reflexivity.
  - intros v. rewrite Hdisplay. apply showView_display.
  - rewrite Hitems. reflexivity.
Qed.

(** X9. [switchView] with a name that is not a view changes nothing.
    With the name of a view it makes that view current and puts it in the
    fragment; of the view elements the page has, the one of that view gets
    'block' and those of the other views get 'none' (an element the page
    lacks is not created); the navigation items are marked by their target;
    and the mobile menu, when the page has it, is closed. *)
Theorem switchView_shows_exactly_the_requested_view :
  forall (viewName : string) (b : Browser),
    (viewName ∉ views (appState b) -> switchView viewName b = b)
    /\ (viewName ∈ views (appState b) ->
        let after := switchView viewName b in
        currentView (appState after) = viewName
        /\ hash (navigation after) = viewName
        /\ (forall v shown,
              viewDisplay (navigation b) !! v = Some shown ->
              viewDisplay (navigation after) !! v
              = Some (if String.eqb v viewName then "block"
                      else if bool_decide (v ∈ views (appState b))
                           then "none" else shown))
        /\ (forall v,
              viewDisplay (navigation b) !! v = None ->
              viewDisplay (navigation after) !! v = None)
        /\ navItems (navigation after)
           = (fun item => (item.1, String.eqb item.1 viewName))
               <$> navItems (navigation b)
        /\ (is_Some (hamburger (navigation b)) ->
            is_Some (mobileMenu (navigation b)) ->
            hamburger (navigation after) = Some false
            /\ mobileMenu (navigation after) = Some false)).
Proof.
  intros viewName b. split.
  - intros Hout. unfold switchView.
    rewrite bool_decide_eq_false_2 by exact Hout. reflexivity.
  - intros Hin after.
    destruct (switchView_valid viewName b Hin)
      as (Hcurrent & _ & Hhash & Hdisplay & Hitems).
    fold after in Hcurrent, Hhash, Hdisplay, Hitems.
    split; [exact Hcurrent|]. split; [exact Hhash|].
    split; [|split; [|split; [exact Hitems|]]].
    + intros v shown Hshown. rewrite Hdisplay, Hshown. reflexivity.
    + intros v Hnone. rewrite Hdisplay, Hnone. reflexivity.
    + intros [button Hbutton] [menu Hmenu]. subst after.
      unfold switchView. rewrite bool_decide_eq_true_2 by exact Hin.
      unfold closeMobileMenu, showView. simpl. rewrite Hbutton, Hmenu. auto.
Qed.

Lemma switchView_witness :
  let b := initial (example_navigation "") Dashboard.example_page Translations.en in
  switchView "settings" b = b
  /\ currentView (appState (switchView "dashboard" b)) = "dashboard"
  /\ viewDisplay (navigation (switchView "dashboard" b)) !! "landing" = Some "none"
  /\ viewDisplay (navigation (switchView "dashboard" b)) !! "dashboard" = Some "block"
  /\ mobileMenu (navigation (switchView "dashboard" b)) = Some false.
Proof.
  intros b.
  destruct (switchView_shows_exactly_the_requested_view "settings" b)
    as [Hunknown _].
  destruct (switchView_shows_exactly_the_requested_view "dashboard" b)
    as [_ Hknown].
  destruct (Hknown ltac:(right; left))
    as (Hcurrent & _ & Hshown & _ & _ & Hmenu).
  split; [|split; [exact Hcurrent|split; [|split]]].
  - apply Hunknown. intros Hin.
    repeat (apply elem_of_cons in Hin as [Hin|Hin]; [discriminate Hin|]).
    inversion Hin.
  - apply (Hshown "landing" "block"). reflexivity.
  - apply (Hshown "dashboard" "none"). reflexivity.
  - apply Hmenu; eexists; reflexivity.
Defined.

Lemma switchView_routed index_html viewName b :
  viewName ∈ views (appState b) ->
  views (appState b) = ["landing"; "dashboard"; "simulator"] ->
  (forall v, v ∈ views (appState b) ->
             (is_Some (viewDisplay (navigation b) !! v)
              <-> is_Some (viewDisplay index_html !! v))) ->
  routed index_html (switchView viewName b).
Proof.
  intros Hin Hviews Hpresent.
  destruct (switchView_valid viewName b Hin)
    as (Hcurrent & Hsame & _ & Hdisplay & _).
  split; [congruence|]. split; [rewrite Hcurrent, Hsame; exact Hin|].
  intros v Hv. rewrite Hdisplay, Hcurrent. rewrite Hsame in Hv.
  specialize (Hpresent v Hv).
  rewrite (bool_decide_eq_true_2 _ Hv).
  destruct (viewDisplay (navigation b) !! v) as [shown|],
    (viewDisplay index_html !! v) as [orig|]; simpl; try reflexivity.
  - destruct Hpresent as [H _]. destruct (H (ex_intro _ _ eq_refl)); discriminate.
  - destruct Hpresent as [_ H]. destruct (H (ex_intro _ _ eq_refl)); discriminate.
Qed.

Lemma routed_present index_html b v :
  routed index_html b ->
  v ∈ views (appState b) ->
  is_Some (viewDisplay (navigation b) !! v)
  <-> is_Some (viewDisplay index_html !! v).
Proof.
  intros (_ & _ & Hdisplay) Hv. rewrite (Hdisplay v Hv).
  rewrite fmap_is_Some. reflexivity.
Qed.

Lemma step_keeps_routed index_html b ev :
  routed index_html b -> routed index_html (step b ev).
Proof.
  intros Hrouted. pose proof Hrouted as (Hviews & Hcurrent & Hdisplay).
  destruct ev as [view|fragment|deptCode|i response]; unfold step.
  - destruct (truthy (Some view)); [|exact Hrouted].
    destruct (decide (view ∈ views (appState b))) as [Hin|Hout].
    + apply switchView_routed; [exact Hin | exact Hviews|].
      intros v Hv. apply routed_present; assumption.
    + unfold switchView. rewrite bool_decide_eq_false_2 by exact Hout.
      exact Hrouted.
  - unfold onHashChange. cbn [appState navigation].
    destruct (truthy (Some fragment) && bool_decide _) eqn:Hvalid;
      [|exact Hrouted].
    apply andb_true_iff in Hvalid as [_ Hin%bool_decide_eq_true].
    apply switchView_routed; [exact Hin | exact Hviews|].
    intros v Hv. cbn [appState navigation viewDisplay] in *.
    apply routed_present; assumption.
  - destruct (clickable _ _); exact Hrouted.
  - destruct (Dashboard.pending (analytics b) !! i) as [[|code]|];
      destruct response; exact Hrouted.
Qed.

(** X10. From the initial routing on, at every point of every run the
    current view is one of the three views, and each of their elements
    that the page has is displayed exactly when it is the element of the
    current view. *)
Theorem exactly_the_current_view_is_shown :
  forall (index_html : NavPage) (dashboard_html : Dashboard.Page)
         (lang : Translations.Lang) (events : list Event),
    let b :=
      run events (initialRoute (initial index_html dashboard_html lang)) in
    currentView (appState b) ∈ ["landing"; "dashboard"; "simulator"]
    /\ forall v,
         v ∈ ["landing"; "dashboard"; "simulator"] ->
         viewDisplay (navigation b) !! v
         = (fun _ => if String.eqb v (currentView (appState b))
                     then "block" else "none")
           <$> viewDisplay index_html !! v.
Proof.
  intros index_html dashboard_html lang events b.
  assert (routed index_html b) as (Hviews & Hcurrent & Hdisplay).
  { apply (browser_run_invariant (routed index_html)).
    - intros b0 ev. apply step_keeps_routed.
    - unfold initialRoute.
      destruct (truthy _ && bool_decide _) eqn:Hvalid.
      + apply andb_true_iff in Hvalid as [_ Hin%bool_decide_eq_true].
        apply switchView_routed; [exact Hin | reflexivity | reflexivity].
      + apply switchView_routed; [|reflexivity | reflexivity].
        simpl. left. }
  rewrite Hviews in Hcurrent, Hdisplay. split; assumption.
Qed.

Lemma current_view_witness :
  let b :=
    run [NavClick "simulator"; HashChange "nowhere"]
      (initialRoute
         (initial (example_navigation "dashboard") Dashboard.example_page
            Translations.en)) in
  viewDisplay (navigation b) !! "simulator" = Some "block"
  /\ viewDisplay (navigation b) !! "dashboard" = Some "none".
Proof.
  intros b.
  destruct (exactly_the_current_view_is_shown (example_navigation "dashboard")
              Dashboard.example_page Translations.en
              [NavClick "simulator"; HashChange "nowhere"]) as [_ Hshown].
  fold b in Hshown. split.
  - rewrite (Hshown "simulator" ltac:(right; right; left)).
    vm_compute. reflexivity.
  - rewrite (Hshown "dashboard" ltac:(right; left)).
    vm_compute. reflexivity.
Defined.

(** X11. On load the view named by the fragment is shown; an empty fragment
    or one that names no view gives the landing view. *)
Theorem unknown_fragment_on_load_gives_the_landing_view :
  forall (index_html : NavPage) (dashboard_html : Dashboard.Page)
         (lang : Translations.Lang),
    let b := initialRoute (initial index_html dashboard_html lang) in
    (hash index_html ∈ ["landing"; "dashboard"; "simulator"] ->
     currentView (appState b) = hash index_html)
    /\ (hash index_html ∉ ["landing"; "dashboard"; "simulator"] ->
        currentView (appState b) = "landing"
        /\ hash (navigation b) = "landing").
Proof.
  intros index_html dashboard_html lang b. subst b. unfold initialRoute.
  cbn [initial appState navigation initial_AppState views].
  split.
  - intros Hin. rewrite (bool_decide_eq_true_2 _ Hin).
    assert (truthy (Some (hash index_html)) = true) as ->.
    { simpl. destruct (String.eqb_spec (hash index_html) ""); [|reflexivity].
      exfalso. rewrite e in Hin.
      repeat (apply elem_of_cons in Hin as [Hin|Hin]; [discriminate Hin|]).
      inversion Hin. }
    apply switchView_valid. exact Hin.
  - intros Hout. rewrite (bool_decide_eq_false_2 _ Hout), andb_false_r.
    destruct (switchView_valid "landing"
                (initial index_html dashboard_html lang))
      as (Hcurrent & _ & Hhash & _); [simpl; left|].
    split; assumption.
Qed.

Lemma load_route_witness :
  currentView
    (appState
       (initialRoute
          (initial (example_navigation "simulator") Dashboard.example_page
             Translations.en))) = "simulator"
  /\ currentView
       (appState
          (initialRoute
             (initial (example_navigation "settings") Dashboard.example_page
                Translations.en))) = "landing".
Proof.
  split.
  - apply (unknown_fragment_on_load_gives_the_landing_view
             (example_navigation "simulator") Dashboard.example_page
             Translations.en).
    right. right. left.
  - apply (unknown_fragment_on_load_gives_the_landing_view
             (example_navigation "settings") Dashboard.example_page
             Translations.en).
    intros Hin. simpl in Hin.
    repeat (apply elem_of_cons in Hin as [Hin|Hin]; [discriminate Hin|]).
    inversion Hin.
Defined.

(** *** An initialisation that failed *)





(** *** Filters in flight *)

Lemma count_delete (f : Dashboard.Pending -> bool) i waiting x :
  waiting !! i = Some x ->
  length (List.filter f waiting)
  = ((if f x then 1 else 0) + length (List.filter f (delete i waiting)))%nat.
Proof.
  revert i. induction waiting as [|y waiting IH]; intros [|i] Hi;
    try discriminate.
  - injection Hi as ->. simpl. destruct (f x); reflexivity.
  - simpl in Hi. specialize (IH i Hi).
    change (delete (S i) (y :: waiting)) with (y :: delete i waiting).
    cbn [List.filter]. destruct (f y), (f x); cbn [length] in *; lia.
Qed.

Lemma init_begin_view w :
  Dashboard.viewDashboard (Dashboard.page (Dashboard.init_begin w))
  = Dashboard.viewDashboard (Dashboard.page w)
  /\ List.filter isFilter (Dashboard.pending (Dashboard.init_begin w))
     = List.filter isFilter (Dashboard.pending w).
Proof.
  unfold Dashboard.init_begin.
  destruct (Dashboard.loaded _); [auto|]. simpl.
  rewrite List.filter_app. simpl. rewrite app_nil_r. auto.
Qed.

Lemma init_resume_view n d h w :
  Dashboard.viewDashboard (Dashboard.page (Dashboard.init_resume n d h w))
  = Dashboard.viewDashboard (Dashboard.page w)
  /\ Dashboard.pending (Dashboard.init_resume n d h w) = Dashboard.pending w.
Proof.
  unfold Dashboard.init_resume.
  destruct (Dashboard.loadData_resume n d h); simpl; [|auto].
  unfold Dashboard.renderDepartmentList. simpl.
  destruct (Dashboard.departmentList (Dashboard.page w)); auto.
Qed.

Lemma filter_resume_view code h w :
  Dashboard.viewDashboard
    (Dashboard.page (Dashboard.filterByDepartment_resume code h w))
  = write ("1", "auto") (Dashboard.viewDashboard (Dashboard.page w))
  /\ Dashboard.pending (Dashboard.filterByDepartment_resume code h w)
     = Dashboard.pending w.
Proof.
  unfold Dashboard.filterByDepartment_resume, Dashboard.filterByDepartment_catch.
  destruct h as [trends|message]; [destruct (Dashboard.data _) as [d0|]|];
    simpl; auto.
  match goal with
  | |- context [Dashboard.updateKPIsForDepartment ?l ?d' ?c ?t ?p'] =>
      destruct (DashboardExtras.updateKPIsForDepartment_frame l d' c t p')
        as (_ & _ & Hlist & Hview & _);
      set (p2 := Dashboard.updateKPIsForDepartment l d' c t p') in *
  end.
  simpl in Hlist, Hview.
  unfold Dashboard.renderDepartmentList. simpl. rewrite Hlist.
  destruct (Dashboard.departmentList (Dashboard.page w)); simpl;
    rewrite Hview; auto.
Qed.

Lemma switchView_filters viewName b :
  Dashboard.viewDashboard (Dashboard.page (analytics (switchView viewName b)))
  = Dashboard.viewDashboard (Dashboard.page (analytics b))
  /\ filtersPending (switchView viewName b) = filtersPending b.
Proof.
  unfold switchView, filtersPending.
  destruct (negb (bool_decide _)); [auto|]. cbn [analytics].
  destruct (String.eqb viewName "dashboard" && _); [|auto].
  destruct (init_begin_view (analytics b)) as [-> Hfilters].
  fold isFilter in *. rewrite Hfilters. auto.
Qed.

Lemma step_keeps_oneFilterAtATime b ev :
  oneFilterAtATime b -> oneFilterAtATime (step b ev).
Proof.
  intros (opacity & pointerEvents & Hview & Hcount).
  destruct ev as [view|fragment|deptCode|i response]; unfold step.
  - destruct (truthy (Some view)); [|exists opacity, pointerEvents; auto].
    destruct (switchView_filters view b) as [Hview' Hcount'].
    exists opacity, pointerEvents. rewrite Hview', Hcount'. auto.
  - unfold onHashChange.
    destruct (truthy (Some fragment) && bool_decide _);
      [|exists opacity, pointerEvents; auto].
    match goal with |- oneFilterAtATime (switchView fragment ?b') =>
      destruct (switchView_filters fragment b') as [Hview' Hcount']
    end.
    exists opacity, pointerEvents. rewrite Hview', Hcount'. auto.
  - unfold clickable. rewrite Hview.
    destruct (Dashboard.departmentList _) as [[rendered|]|];
      try (exists opacity, pointerEvents; auto; fail).
    destruct (String.eqb_spec pointerEvents "none") as [->|Hne]; simpl;
      [exists opacity, "none"; auto|].
    destruct (_ || _); [|exists opacity, pointerEvents; auto].
    exists "0.6", "none". split.
    + simpl. rewrite Hview. reflexivity.
    + right. split; [|reflexivity].
      destruct Hcount as [Hzero|[_ ?]]; [|contradiction].
      unfold filtersPending in *. simpl. rewrite List.filter_app, length_app.
      rewrite Hzero. reflexivity.
  - destruct (Dashboard.pending (analytics b) !! i) as [[|code]|] eqn:Hi;
      [| |exists opacity, pointerEvents; auto].
    + destruct response as [n d h|h]; [|exists opacity, pointerEvents; auto].
      destruct (init_resume_view n d h (Dashboard.settled i (analytics b)))
        as [Hview' Hpending'].
      exists opacity, pointerEvents. unfold filtersPending. simpl.
      rewrite Hview', Hpending'. simpl. split; [exact Hview|].
      unfold filtersPending in Hcount.
      rewrite (count_delete _ _ _ _ Hi) in Hcount. exact Hcount.
    + destruct response as [n d h|h]; [exists opacity, pointerEvents; auto|].
      destruct (filter_resume_view code h (Dashboard.settled i (analytics b)))
        as [Hview' Hpending'].
      exists "1", "auto". unfold filtersPending. simpl.
      rewrite Hview', Hpending'. simpl. rewrite Hview. split; [reflexivity|].
      left. unfold filtersPending in Hcount.
      rewrite (count_delete _ _ _ _ Hi) in Hcount. simpl in Hcount.
      destruct Hcount as [?|[? _]]; [discriminate | lia].
Qed.

(** X13. On a page that has the dashboard view, at no point of any run is
    more than one history request of [filterByDepartment] in flight: the
    view takes no clicks from the call until its request settles. *)
Theorem at_most_one_filter_in_flight :
  forall (index_html : NavPage) (dashboard_html : Dashboard.Page)
         (lang : Translations.Lang) (events : list Event),
    is_Some (Dashboard.viewDashboard dashboard_html) ->
    (filtersPending (run events (initial index_html dashboard_html lang)) <= 1)%nat.
Proof.
  intros index_html dashboard_html lang events [[opacity pointerEvents] Hview].
  assert (oneFilterAtATime (run events (initial index_html dashboard_html lang)))
    as (opacity' & pointerEvents' & _ & Hcount).
  { apply (browser_run_invariant oneFilterAtATime step_keeps_oneFilterAtATime).
    exists opacity, pointerEvents. split; [exact Hview|]. left. reflexivity. }
  destruct Hcount as [Hzero|[Hone _]]; [rewrite Hzero | rewrite Hone]; lia.
Qed.

Lemma at_most_one_filter_witness :
  is_Some (Dashboard.viewDashboard Dashboard.example_page)
  /\ (filtersPending
        (run [NavClick "dashboard";
              Settle 0 (Dashboard.InitResponses
                          (Resolved Dashboard.example_national)
                          (Resolved Dashboard.example_departments)
                          (Resolved (Dashboard.example_history None 0)));
              DeptClick "27"; DeptClick "94"]
           (initial (example_navigation "") Dashboard.example_page
              Translations.en)) <= 1)%nat.
Proof.
  split; [eexists; reflexivity|].
  apply at_most_one_filter_in_flight. eexists; reflexivity.
Defined.

(** *** The error banner *)

Lemma write_bannerShown message p :
  bannerShown p ->
  exists message',
    write (message, "block") (Dashboard.dashboardError p)
    = Some (message', "block").
Proof. intros [message0 ->]. exists message. reflexivity. Qed.

Lemma updateKPIsForDepartment_error lang d departmentCode trends p :
  Dashboard.dashboardError
    (Dashboard.updateKPIsForDepartment lang d departmentCode trends p)
  = Dashboard.dashboardError p.
Proof.
  unfold Dashboard.updateKPIsForDepartment.
  destruct (negb (truthy departmentCode)); reflexivity.
Qed.

Lemma init_begin_error w :
  Dashboard.dashboardError (Dashboard.page (Dashboard.init_begin w))
  = Dashboard.dashboardError (Dashboard.page w).
Proof.
  unfold Dashboard.init_begin. destruct (Dashboard.loaded _); reflexivity.
Qed.

Lemma init_resume_error n d h w :
  bannerShown (Dashboard.page w) ->
  bannerShown (Dashboard.page (Dashboard.init_resume n d h w)).
Proof.
  intros Hshown. unfold Dashboard.init_resume.
  destruct (Dashboard.loadData_resume n d h) as [loaded|message]; simpl.
  - unfold Dashboard.renderDepartmentList. simpl.
    destruct (Dashboard.departmentList (Dashboard.page w)); exact Hshown.
  - apply write_bannerShown. exact Hshown.
Qed.

Lemma filter_resume_error code h w :
  bannerShown (Dashboard.page w) ->
  bannerShown (Dashboard.page (Dashboard.filterByDepartment_resume code h w)).
Proof.
  intros Hshown.
  unfold Dashboard.filterByDepartment_resume, Dashboard.filterByDepartment_catch.
  destruct h as [trends|message]; [destruct (Dashboard.data _) as [d0|]|];
    simpl; try (apply write_bannerShown; exact Hshown).
  match goal with
  | |- context [Dashboard.updateKPIsForDepartment ?l ?d' ?c ?t ?p'] =>
      pose proof (updateKPIsForDepartment_error l d' c t p') as Herror;
      destruct (DashboardExtras.updateKPIsForDepartment_frame l d' c t p')
        as (_ & _ & Hlist & _);
      set (p2 := Dashboard.updateKPIsForDepartment l d' c t p') in *
  end.
  simpl in Hlist, Herror.
  unfold Dashboard.renderDepartmentList. simpl. rewrite Hlist.
  unfold bannerShown.
  destruct (Dashboard.departmentList (Dashboard.page w)); simpl;
    rewrite Herror; exact Hshown.
Qed.

Lemma switchView_error viewName b :
  Dashboard.dashboardError (Dashboard.page (analytics (switchView viewName b)))
  = Dashboard.dashboardError (Dashboard.page (analytics b)).
Proof.
  unfold switchView.
  destruct (negb (bool_decide _)); [reflexivity|]. cbn [analytics].
  destruct (String.eqb viewName "dashboard" && _); [|reflexivity].
  apply init_begin_error.
Qed.

Lemma step_keeps_errorShown b ev : errorShown b -> errorShown (step b ev).
Proof.
  intros Hshown. destruct ev as [view|fragment|deptCode|i response];
    unfold step.
  - destruct (truthy (Some view)); [|exact Hshown].
    unfold errorShown, bannerShown. rewrite switchView_error. exact Hshown.
  - unfold onHashChange.
    destruct (truthy (Some fragment) && bool_decide _); [|exact Hshown].
    unfold errorShown, bannerShown. rewrite switchView_error. exact Hshown.
  - destruct (clickable _ _); exact Hshown.
  - destruct (Dashboard.pending (analytics b) !! i) as [[|code]|];
      [| |exact Hshown]; destruct response as [n d h|h]; try exact Hshown.
    + apply (init_resume_error n d h (Dashboard.settled i (analytics b))).
      exact Hshown.
    + apply (filter_resume_error code h (Dashboard.settled i (analytics b))).
      exact Hshown.
Qed.

(** X14. Nothing hides the dashboard's error banner: once it is displayed
    it stays displayed through every later click, fragment change and
    settled request, also through a later filter that succeeds. *)
Theorem error_banner_is_never_hidden :
  forall (b : Browser) (events : list Event),
    errorShown b -> errorShown (run events b).
Proof.
  intros b events Hshown.
  apply (browser_run_invariant errorShown step_keeps_errorShown).
  exact Hshown.
Qed.

Lemma error_banner_witness :
  let failed :=
    run [NavClick "dashboard";
         Settle 0 (Dashboard.InitResponses
                     (Resolved Dashboard.example_national)
                     (Resolved Dashboard.example_departments)
                     (Resolved (Dashboard.example_history None 0)));
         DeptClick "27";
         Settle 0 (Dashboard.HistoryResponse (Rejected "HTTP 500"))]
      (initial (example_navigation "") Dashboard.example_page Translations.en) in
  errorShown failed
  /\ errorShown
       (run [DeptClick "94";
             Settle 0 (Dashboard.HistoryResponse
                         (Resolved (Dashboard.example_history (Some "94") 2.1)))]
          failed).
Proof.
  intros failed.
  assert (errorShown failed) as Hshown.
  { exists "Error loading department data". vm_compute. reflexivity. }
  split; [exact Hshown|].
  apply error_banner_is_never_hidden. exact Hshown.
Defined.

End NavigationExtras.

(* ===================================================================== *)
(** * Further properties of the simulator                                 *)
(* ===================================================================== *)

Module SimulatorExtras.
Import Js Api App SimulatorProofs.

(** *** Buttons follow the state *)

Lemma updateInvestmentLevels_synced s e type card :
  get type (investmentCards (updateInvestmentLevels s e)) = Some card ->
  disabled (btn_invest card)
  = (3 <=? get type (investments s)) || (budget s <? data_cost (btn_invest card)).
Proof.
  unfold updateInvestmentLevels. simpl. rewrite get_for_each.
  destruct (get type (investmentCards e)) as [old|]; simpl; [|discriminate].
  intros [= <-]. simpl. unfold updateButton.
  destruct (3 <=? get type (investments s)); [reflexivity|].
  destruct (budget s <? data_cost (btn_invest old)) eqn:Hbudget; simpl;
    rewrite Hbudget; reflexivity.
Qed.

Lemma handleInvestment_synced type cost w :
  synced w -> synced (handleInvestment type cost w).
Proof.
  intros Hsynced type' card. unfold level. rewrite handleInvestment_state.
  unfold handleInvestment.
  destruct (budget (state w) <? cost); [apply Hsynced|].
  rewrite updatePrediction_begin_cards. simpl.
  apply updateInvestmentLevels_synced.
Qed.

Lemma handleReset_synced w : synced (handleReset w).
Proof.
  intros type card. unfold level, handleReset. simpl.
  destruct (truthy _).
  - rewrite handleLoadData_begin_state, handleLoadData_begin_cards. simpl.
    apply updateInvestmentLevels_synced.
  - simpl. apply updateInvestmentLevels_synced.
Qed.

(** The state and the cards after a baseline that loaded. *)
Lemma handleLoadData_resume_resolved prediction w :
  let s :=
    with_investments (Build_PerKind 0 0 0 0)
      (with_currentPrediction (Some prediction)
         (with_baseline (Some prediction) (state w))) in
  state (handleLoadData_resume (Resolved prediction) w) = s
  /\ investmentCards (page (handleLoadData_resume (Resolved prediction) w))
     = investmentCards (updateInvestmentLevels s (page w)).
Proof.
  intros s. unfold handleLoadData_resume, resetInvestments. fold s.
  match goal with
  | |- context [displayResults s ?e] =>
      pose proof (displayResults_cards s e) as Hcards;
      destruct (displayResults s e) as [e' [|m]]
  end;
    cbn [fst] in Hcards;
    cbn [state page update investmentCards showLoading with_loadingIndicator
         with_resultsContainer showError with_errorMessage];
    (split; [reflexivity|]); rewrite Hcards; reflexivity.
Qed.

Lemma handleLoadData_resume_synced response w :
  synced w -> synced (handleLoadData_resume response w).
Proof.
  intros Hsynced type card. unfold level.
  destruct response as [prediction|message]; [|apply Hsynced].
  destruct (handleLoadData_resume_resolved prediction w) as [-> ->].
  apply updateInvestmentLevels_synced.
Qed.

Lemma step_keeps_synced w ev : synced w -> synced (step w ev).
Proof.
  intros Hsynced.
  destruct ev as [type| | |value|value|i response|]; simpl.
  - destruct (get type (investmentCards (page w))) as [card|]; [|exact Hsynced].
    destruct (disabled (btn_invest card)); [exact Hsynced|].
    apply handleInvestment_synced. exact Hsynced.
  - apply handleReset_synced.
  - intros type card. unfold level.
    rewrite handleLoadData_begin_state, handleLoadData_begin_cards.
    apply Hsynced.
  - unfold handleDepartmentChange. destruct (truthy _); exact Hsynced.
  - exact Hsynced.
  - destruct (pending w !! i) as [[|]|]; [| |exact Hsynced].
    + intros type card. unfold level.
      rewrite updatePrediction_resume_levels, updatePrediction_resume_budget,
        updatePrediction_resume_cards.
      apply Hsynced.
    + apply handleLoadData_resume_synced. exact Hsynced.
  - destruct (timers w); exact Hsynced.
Qed.

(** X15. Once the buttons have been refreshed, by a reset or by a baseline
    that loaded, they follow the state through every run: a button is
    disabled exactly when its kind is at level 3 or above or the budget is
    below its cost. *)
Theorem buttons_follow_levels_and_budget :
  forall (w : World) (prediction : Prediction) (events : list Event)
         (type : InvestmentKind) (card : InvestmentCard),
    (let after := run events (handleReset w) in
     get type (investmentCards (page after)) = Some card ->
     disabled (btn_invest card)
     = (3 <=? level type after)
       || (budget (state after) <? data_cost (btn_invest card)))
    /\ (let after := run events (handleLoadData_resume (Resolved prediction) w) in
        get type (investmentCards (page after)) = Some card ->
        disabled (btn_invest card)
        = (3 <=? level type after)
          || (budget (state after) <? data_cost (btn_invest card))).
Proof.
  intros w prediction events type card. split; intros after.
  - apply (run_invariant synced step_keeps_synced events _ (handleReset_synced w)).
  - apply (run_invariant synced step_keeps_synced events).
    intros type' card'. unfold level.
    destruct (handleLoadData_resume_resolved prediction w) as [-> ->].
    apply updateInvestmentLevels_synced.
Qed.

Lemma buttons_follow_witness :
  let after :=
    run [ClickInvest staffing; ClickInvest staffing]
      (handleReset (initial example_page)) in
  exists card,
    get infrastructure (investmentCards (page after)) = Some card
    /\ disabled (btn_invest card) = true
    /\ budget (state after) = 2000.
Proof.
  intros after.
  exists (updateCard (state after) 0 (example_card infrastructure)).
  split; [vm_compute; reflexivity|]. split; [|vm_compute; reflexivity].
  destruct (buttons_follow_levels_and_budget (initial example_page)
              example_prediction [ClickInvest staffing; ClickInvest staffing]
              infrastructure
              (updateCard (state after) 0 (example_card infrastructure)))
    as [Hreset _].
  rewrite (Hreset ltac:(vm_compute; reflexivity)).
  vm_compute. reflexivity.
Defined.

(** X16. With buttons that follow the state, a click on an investment
    button either changes nothing (no such button, or it is disabled) or
    is an accepted investment: the kind was below level 3, the budget
    covered the cost and is debited by it, and the level goes up by one.
    The refusal of [handleInvestment] for lack of budget is never
    reached. *)
Theorem click_is_ignored_or_accepted :
  forall (w : World) (type : InvestmentKind),
    synced w ->
    step w (ClickInvest type) = w
    \/ exists card,
         get type (investmentCards (page w)) = Some card
         /\ level type w < 3
         /\ data_cost (btn_invest card) <= budget (state w)
         /\ budget (state (step w (ClickInvest type)))
            = budget (state w) - data_cost (btn_invest card)
         /\ level type (step w (ClickInvest type)) = level type w + 1.
Proof.
  intros w type Hsynced. simpl.
  destruct (get type (investmentCards (page w))) as [card|] eqn:Hcard;
    [|left; reflexivity].
  destruct (disabled (btn_invest card)) eqn:Hdisabled; [left; reflexivity|].
  right. exists card. rewrite (Hsynced type card Hcard) in Hdisabled.
  apply orb_false_iff in Hdisabled as [Hlevel Hbudget].
  apply Z.leb_gt in Hlevel. apply Z.ltb_ge in Hbudget.
  split; [reflexivity|]. split; [exact Hlevel|]. split; [exact Hbudget|].
  rewrite level_handleInvestment, handleInvestment_state.
  destruct (Z.ltb_spec (budget (state w)) (data_cost (btn_invest card)));
    [lia|].
  split; [reflexivity|].
  destruct (decide (type = type)); [reflexivity | contradiction].
Qed.

Lemma click_witness :
  let w := handleReset (initial example_page) in
  step w (ClickInvest staffing) = w
  \/ exists card,
       get staffing (investmentCards (page w)) = Some card
       /\ level staffing w < 3
       /\ data_cost (btn_invest card) <= budget (state w)
       /\ budget (state (step w (ClickInvest staffing)))
          = budget (state w) - data_cost (btn_invest card)
       /\ level staffing (step w (ClickInvest staffing)) = level staffing w + 1.
Proof.
  apply (click_is_ignored_or_accepted (handleReset (initial example_page))
           staffing).
  apply handleReset_synced.
Defined.
(** *** Accounting *)

Lemma costOf_updateInvestmentLevels s e type :
  costOf type (updateInvestmentLevels s e) = costOf type e.
Proof.
  unfold costOf, updateInvestmentLevels. simpl. rewrite get_for_each.
  destruct (get type (investmentCards e)); simpl; [|reflexivity].
  unfold updateButton.
  destruct (3 <=? _); [|destruct (_ <? _)]; reflexivity.
Qed.

Lemma costOf_cards e e' type :
  investmentCards e' = investmentCards e -> costOf type e' = costOf type e.
Proof. unfold costOf. intros ->. reflexivity. Qed.

Lemma costOf_handleInvestment type cost w type' :
  costOf type' (page (handleInvestment type cost w)) = costOf type' (page w).
Proof.
  unfold handleInvestment.
  destruct (budget (state w) <? cost); [reflexivity|].
  rewrite (costOf_cards _ _ _ (updatePrediction_begin_cards _)). simpl.
  rewrite costOf_updateInvestmentLevels. reflexivity.
Qed.

Lemma costOf_resetInvestments s e type :
  costOf type (resetInvestments s e).2 = costOf type e.
Proof.
  unfold resetInvestments. cbn [snd].
  etransitivity; [|apply (costOf_updateInvestmentLevels
                             (with_investments (Build_PerKind 0 0 0 0) s))].
  apply costOf_cards. reflexivity.
Qed.

Lemma costOf_handleReset w type :
  costOf type (page (handleReset w)) = costOf type (page w).
Proof.
  unfold handleReset.
  pose proof (costOf_resetInvestments (with_budget 10000 (state w)) (page w) type)
    as Hreset.
  destruct (resetInvestments _ _) as [s e]. simpl in *.
  destruct (truthy _); [|exact Hreset].
  rewrite (costOf_cards _ _ _ (handleLoadData_begin_cards _)). exact Hreset.
Qed.

Lemma costOf_handleLoadData_resume response w type :
  costOf type (page (handleLoadData_resume response w)) = costOf type (page w).
Proof.
  destruct response as [prediction|message]; [|reflexivity].
  destruct (handleLoadData_resume_resolved prediction w) as [_ Hcards].
  rewrite (costOf_cards _ _ _ Hcards). apply costOf_updateInvestmentLevels.
Qed.

Lemma costOf_step w ev type :
  costOf type (page (step w ev)) = costOf type (page w).
Proof.
  destruct ev as [type'| | |value|value|i response|]; simpl.
  - destruct (get type' (investmentCards (page w))) as [card|]; [|reflexivity].
    destruct (disabled (btn_invest card)); [reflexivity|].
    apply costOf_handleInvestment.
  - apply costOf_handleReset.
  - apply costOf_cards, handleLoadData_begin_cards.
  - unfold handleDepartmentChange. destruct (truthy _); reflexivity.
  - reflexivity.
  - destruct (pending w !! i) as [[|]|]; [| |reflexivity];
      change (page w) with (page (settled i w)).
    + apply costOf_cards, updatePrediction_resume_cards.
    + apply costOf_handleLoadData_resume.
  - destruct (timers w); reflexivity.
Qed.

Lemma spent_zero w :
  (forall type, level type w = 0) -> spent w = 0.
Proof. intros Hzero. unfold spent. rewrite !Hzero. lia. Qed.

Lemma spent_nonnegative w :
  costs_nonnegative (page w) -> levels_in_range w -> 0 <= spent w.
Proof.
  intros Hcosts Hrange. unfold spent.
  pose proof (Hcosts infrastructure). pose proof (Hcosts quality).
  pose proof (Hcosts coverage). pose proof (Hcosts staffing).
  pose proof (Hrange infrastructure). pose proof (Hrange quality).
  pose proof (Hrange coverage). pose proof (Hrange staffing).
  nia.
Qed.

Lemma spent_handleInvestment_debited type card w :
  get type (investmentCards (page w)) = Some card ->
  data_cost (btn_invest card) <= budget (state w) ->
  spent (handleInvestment type (data_cost (btn_invest card)) w)
  = spent w + data_cost (btn_invest card).
Proof.
  intros Hcard Hcost. unfold spent.
  rewrite !costOf_handleInvestment, !level_handleInvestment.
  destruct (Z.ltb_spec (budget (state w)) (data_cost (btn_invest card)));
    [lia|].
  assert (costOf type (page w) = data_cost (btn_invest card)) as Hprice.
  { unfold costOf. rewrite Hcard. reflexivity. }
  destruct type; simpl decide; rewrite <- Hprice; simpl; lia.
Qed.

Lemma spent_handleInvestment_refused type cost w :
  budget (state w) < cost ->
  spent (handleInvestment type cost w) = spent w.
Proof.
  intros Hcost. unfold spent.
  rewrite !costOf_handleInvestment, !level_handleInvestment.
  destruct (Z.ltb_spec (budget (state w)) cost); [reflexivity | lia].
Qed.

Lemma step_keeps_accounted w ev : accounted w -> accounted (step w ev).
Proof.
  intros (Hcosts & Hrange & Hcap & Hsum).
  destruct (step_keeps_levels w ev (conj Hrange Hcap)) as [Hrange' Hcap'].
  split; [|split; [exact Hrange'|split; [exact Hcap'|]]].
  { intros type. rewrite costOf_step. apply Hcosts. }
  pose proof (spent_nonnegative w Hcosts Hrange) as Hspent.
  destruct ev as [type| | |value|value|i response|]; simpl.
  - destruct (get type (investmentCards (page w))) as [card|] eqn:Hcard;
      [|exact Hsum].
    destruct (disabled (btn_invest card)); [exact Hsum|].
    destruct (Z.lt_ge_cases (budget (state w)) (data_cost (btn_invest card)))
      as [Hlt|Hge].
    + rewrite spent_handleInvestment_refused, handleInvestment_state by exact Hlt.
      destruct (Z.ltb_spec (budget (state w)) (data_cost (btn_invest card)));
        [exact Hsum | lia].
    + rewrite (spent_handleInvestment_debited type card w Hcard Hge),
        handleInvestment_state.
      destruct (Z.ltb_spec (budget (state w)) (data_cost (btn_invest card)));
        [lia|]. simpl. lia.
  - rewrite handleReset_budget, spent_zero; [lia|].
    intros type. apply handleReset_levels.
  - unfold spent, level.
    rewrite !(costOf_cards _ _ _ (handleLoadData_begin_cards _)),
      !handleLoadData_begin_state.
    exact Hsum.
  - unfold handleDepartmentChange. destruct (truthy _); exact Hsum.
  - exact Hsum.
  - destruct (pending w !! i) as [[|]|]; [| |exact Hsum].
    + unfold spent, level.
      rewrite !(costOf_cards _ _ _ (updatePrediction_resume_cards _ _)),
        !updatePrediction_resume_levels, updatePrediction_resume_budget.
      exact Hsum.
    + rewrite handleLoadData_resume_budget.
      destruct response as [prediction|message].
      * rewrite spent_zero; [simpl; lia|].
        intros type. unfold handleLoadData_resume, level, resetInvestments.
        case_display; destruct type; reflexivity.
      * exact Hsum.
  - destruct (timers w); exact Hsum.
Qed.

(** X17. On a page whose buttons have no negative cost, in every run from
    the initial state the budget plus the cost of the levels held, at the
    prices on the buttons, never exceeds the initial 10000; so the budget
    never exceeds 10000. *)
Theorem budget_and_levels_never_exceed_the_initial_budget :
  forall (index_html : Elements) (events : list Event),
    costs_nonnegative index_html ->
    let w := run events (initial index_html) in
    budget (state w) + spent w <= 10000
    /\ budget (state w) <= 10000.
Proof.
  intros index_html events Hcosts w.
  assert (accounted w) as (Hcosts' & Hrange & _ & Hsum).
  { apply (run_invariant accounted step_keeps_accounted).
    destruct (initial_levels index_html) as [Hrange Hcap].
    split; [exact Hcosts|]. split; [exact Hrange|]. split; [exact Hcap|].
    rewrite spent_zero; [simpl; lia|].
    intros type. destruct type; reflexivity. }
  split; [exact Hsum|].
  pose proof (spent_nonnegative w Hcosts' Hrange). lia.
Qed.

Lemma example_costs_nonnegative : costs_nonnegative example_page.
Proof. intros type. destruct type; vm_compute; discriminate. Qed.

Lemma accounting_witness :
  let w :=
    run [ClickInvest staffing; ClickInvest coverage] (initial example_page) in
  budget (state w) + spent w <= 10000 /\ budget (state w) <= 10000.
Proof.
  exact (budget_and_levels_never_exceed_the_initial_budget example_page
           [ClickInvest staffing; ClickInvest coverage]
           example_costs_nonnegative).
Defined.

(** *** Investing without a baseline, and a recompute that fails *)

Lemma adjustments_of_without_baseline s type :
  baseline s = None ->
  0 < get type (investments s) ->
  adjustments_of s = Rejected (TypeError_null "input_parameters").
Proof.
  intros Hbase Hlevel. unfold adjustments_of. rewrite Hbase.
  assert (existsb (fun type => 0 <? get type (investments s)) entries = true)
    as ->; [|reflexivity].
  apply existsb_exists. exists type. split.
  - destruct type; simpl; auto.
  - apply Z.ltb_lt. exact Hlevel.
Qed.

(** X18. An accepted investment made before any baseline is loaded takes
    the cost and raises the level, but sends no request and leaves nothing
    pending: [updatePrediction] fails on the missing baseline and shows
    its error. *)
Theorem investment_without_baseline_sends_nothing :
  forall (w : World) (type : InvestmentKind) (cost : Z),
    baseline (state w) = None ->
    cost <= budget (state w) ->
    0 <= level type w ->
    let after := handleInvestment type cost w in
    sent after = sent w
    /\ pending after = pending w
    /\ budget (state after) = budget (state w) - cost
    /\ level type after = level type w + 1
    /\ errorMessage (page after)
       = write ("Error al actualizar predicción: "
                +:+ TypeError_null "input_parameters", "block")
               (errorMessage (page w))
    /\ loadingIndicator (page after) = write "none" (loadingIndicator (page w)).
Proof.
  intros w type cost Hbase Hcost Hlevel after. subst after.
  rewrite level_handleInvestment, handleInvestment_state.
  unfold handleInvestment, updatePrediction_begin.
  destruct (Z.ltb_spec (budget (state w)) cost); [lia|]. cbn [state update].
  rewrite (adjustments_of_without_baseline _ type).
  - simpl. destruct (decide (type = type)); [|contradiction].
    destruct (errorMessage (page w)), (loadingIndicator (page w));
      repeat split.
  - exact Hbase.
  - simpl. rewrite get_set_eq. unfold level in Hlevel. lia.
Qed.

Lemma investment_without_baseline_witness :
  let after := handleInvestment coverage 1000 (initial example_page) in
  sent after = [] /\ budget (state after) = 9000 /\ level coverage after = 1.
Proof.
  destruct (investment_without_baseline_sends_nothing (initial example_page)
              coverage 1000 eq_refl ltac:(vm_compute; discriminate)
              ltac:(vm_compute; discriminate))
    as (Hsent & _ & Hbudget & Hlevel & _).
  split; [exact Hsent|]. split; [exact Hbudget | exact Hlevel].
Defined.

(** X19. When the request of an accepted investment is rejected, the
    investment stands: the budget stays debited and the level raised, the
    current prediction is the one from before, and the error is shown. *)
Theorem failed_recompute_keeps_the_investment :
  forall (w : World) (type : InvestmentKind) (cost : Z) (message : string),
    cost <= budget (state w) ->
    let after :=
      updatePrediction_resume (Rejected message) (handleInvestment type cost w) in
    budget (state after) = budget (state w) - cost
    /\ level type after = level type w + 1
    /\ currentPrediction (state after) = currentPrediction (state w)
    /\ baseline (state after) = baseline (state w)
    /\ errorMessage (page after)
       = write ("Error al actualizar predicción: " +:+ message, "block")
               (errorMessage (page w)).
Proof.
  intros w type cost message Hcost after. subst after.
  unfold updatePrediction_resume, level. cbn [state update page].
  rewrite handleInvestment_state.
  destruct (Z.ltb_spec (budget (state w)) cost); [lia|]. simpl.
  rewrite get_set_eq.
  split; [reflexivity|]. split; [reflexivity|].
  split; [reflexivity|]. split; [reflexivity|].
  unfold handleInvestment, updatePrediction_begin.
  destruct (Z.ltb_spec (budget (state w)) cost); [lia|].
  destruct (adjustments_of _); simpl;
    destruct (errorMessage (page w)); reflexivity.
Qed.

Lemma failed_recompute_witness :
  let after :=
    updatePrediction_resume (Rejected "Prediction failed")
      (handleInvestment staffing 4000 (example_loaded example_page)) in
  budget (state after) = 6000 /\ level staffing after = 1.
Proof.
  destruct (failed_recompute_keeps_the_investment (example_loaded example_page)
              staffing 4000 "Prediction failed"
              ltac:(vm_compute; discriminate))
    as (Hbudget & Hlevel & _).
  split; [exact Hbudget | exact Hlevel].
Defined.

(** *** Loading a baseline, and resetting *)

Lemma ltb_difference_with_itself (x : Q) :
  ltb 0 (x - x) = false /\ ltb (x - x) 0 = false.
Proof.
  assert (x - x == 0)%Q as Hzero by (unfold Qminus; apply Qplus_opp_r).
  unfold ltb. rewrite !negb_false_iff. split; apply Qle_bool_iff;
    rewrite Hzero; apply Qle_refl.
Qed.

(** X20. A baseline that loads becomes both the baseline and the current
    prediction, the four levels go back to 0 and the trend indicator shows
    'Sin cambios'; the budget is not restored: it stays what earlier
    investments left. *)
Theorem loaded_baseline_resets_levels_but_not_the_budget :
  forall (w : World) (prediction : Prediction),
    let after := handleLoadData_resume (Resolved prediction) w in
    baseline (state after) = Some prediction
    /\ currentPrediction (state after) = Some prediction
    /\ investments (state after) = Build_PerKind 0 0 0 0
    /\ budget (state after) = budget (state w)
    /\ trendIndicator (tiles (page after))
       = write ([Lit "Sin cambios"], "tile-trend")
               (trendIndicator (tiles (page w)))
    /\ resultsContainer (page after) = write "block" (resultsContainer (page w))
    /\ errorMessage (page after) = errorMessage (page w)
    /\ sent after = sent w.
Proof.
  intros w prediction after. subst after.
  unfold handleLoadData_resume, resetInvestments, displayResults.
  cbn [currentPrediction baseline with_investments with_currentPrediction
       with_baseline].
  destruct (ltb_difference_with_itself (predicted_dropout_rate prediction))
    as [-> ->].
  simpl.
  destruct (trendIndicator (tiles (page w))), (resultsContainer (page w)),
    (errorMessage (page w)); repeat split.
Qed.

(** X21. [handleReset] and [handleLoadData] ask for a baseline only when a
    municipality is selected: with none (or the empty choice) nothing is
    sent and nothing is pending; with one, exactly one request is sent, for
    that municipality and the year 2025, without scenario adjustments. *)
Theorem baseline_is_requested_only_for_a_selected_municipality :
  forall (w : World),
    (truthy (selectedMunicipality (state w)) = false ->
     handleLoadData_begin w = w
     /\ sent (handleReset w) = sent w
     /\ pending (handleReset w) = pending w)
    /\ (truthy (selectedMunicipality (state w)) = true ->
        let request :=
          PostPredict
            {| body_municipality_name := selectedMunicipality (state w);
               body_target_year := 2025;
               scenario_adjustments := None |} in
        sent (handleLoadData_begin w) = sent w ++ [request]
        /\ pending (handleLoadData_begin w) = pending w ++ [AwaitLoad]
        /\ sent (handleReset w) = sent w ++ [request]
        /\ pending (handleReset w) = pending w ++ [AwaitLoad]).
Proof.
  intros w. unfold handleReset, handleLoadData_begin, resetInvestments.
  cbn [state update selectedMunicipality with_investments with_budget].
  split; intros ->; repeat split.
Qed.

Lemma baseline_request_witness :
  sent (handleReset (initial example_page)) = []
  /\ sent (handleReset (handleMunicipalityChange "Turbaco" (initial example_page)))
     = [PostPredict
          {| body_municipality_name := Some "Turbaco";
             body_target_year := 2025;
             scenario_adjustments := None |}].
Proof.
  destruct (baseline_is_requested_only_for_a_selected_municipality
              (initial example_page)) as [Hnone _].
  destruct (baseline_is_requested_only_for_a_selected_municipality
              (handleMunicipalityChange "Turbaco" (initial example_page)))
    as [_ Hsome].
  split.
  - apply (Hnone eq_refl).
  - apply (Hsome eq_refl).
Defined.

End SimulatorExtras.
